(** * LED banner (src/led-banner.js): a shallow embedding and its properties

    The file follows the JavaScript source method by method.

    Modelling conventions.
    - A JavaScript number is an exact rational ([Q]); integers that the code
      uses as array lengths and loop bounds are [Z].  [Math.floor] is
      [Qfloor].  Rounding of doubles is not modelled.
    - An options object is a finite map from property names to values
      ([gmap string Value]); a missing property reads as [VUndef].
    - A JavaScript array is a list; reading past the end gives [None]
      (undefined), writing past the end extends the array.  A string is the
      sequence of its code units.
    - A method that can throw returns an [option]; [None] is the exception.
    - The browser is a parameter: the pixels that the 2D canvas hands back
      after the text was drawn ([getImageData]) and the table of element ids
      of the document. *)

From Stdlib Require Import ZArith QArith Qround Lqa Lia.
From stdpp Require Import gmap strings list fin_maps.

Local Open Scope Z_scope.

(** ** Values and truthiness *)

Definition Element := positive.

Inductive Value : Type :=
  | VUndef
  | VNull
  | VBool (b : bool)
  | VNum (q : Q)
  | VNaN
  | VStr (s : string)
  | VObj (e : Element).

(** ToBoolean *)
Definition to_boolean (v : Value) : bool :=
  match v with
  | VUndef | VNull | VNaN => false
  | VBool b => b
  | VNum q => negb (Qnum q =? 0)
  | VStr s => negb (String.eqb s "")
  | VObj _ => true
  end.

(** [a || b] *)
Definition js_or (a b : Value) : Value := if to_boolean a then a else b.

(** [o.k] on an options object *)
Definition prop (o : gmap string Value) (k : string) : Value :=
  default VUndef (o !! k).

(** ** The constructor's option defaults (source lines 4-13) *)

Definition document_body : Element := 1%positive.

(** [this.options] as the constructor builds it: one value per recognised
    option, each [options.k || default]. *)
Record OptionValues : Type := {
  v_container : Value;
  v_text : Value;
  v_panelWidth : Value;
  v_panelHeight : Value;
  v_ledSize : Value;
  v_spacing : Value;
  v_offColor : Value;
  v_scrollSpeed : Value
}.

Definition default_text : string := "WELCOME TO MY WEBSITE".

Definition default_options (options : gmap string Value) : OptionValues :=
  {| v_container := js_or (prop options "container") (VObj document_body);
     v_text := js_or (prop options "text") (VStr default_text);
     v_panelWidth := js_or (prop options "panelWidth") (VNum 80);
     v_panelHeight := js_or (prop options "panelHeight") (VNum 10);
     v_ledSize := js_or (prop options "ledSize") (VNum (85 # 100));
     v_spacing := js_or (prop options "spacing") (VNum (12 # 10));
     v_offColor := js_or (prop options "offColor") (VNum 1048576);
     v_scrollSpeed := js_or (prop options "scrollSpeed") (VNum (4 # 10)) |}.

(** The methods below are modelled on configurations of the types the
    specification gives them: the container an element, the text a string,
    the panel dimensions and the colour integers, the rest numbers.  On other
    values the JavaScript code coerces or throws; that is outside this model
    and [typed_options] answers [None]. *)
Record Options : Type := {
  container : Element;
  text : string;
  panelWidth : Z;
  panelHeight : Z;
  ledSize : Q;
  spacing : Q;
  offColor : Z;
  scrollSpeed : Q
}.

Definition as_elem (v : Value) : option Element :=
  match v with VObj e => Some e | _ => None end.
Definition as_str (v : Value) : option string :=
  match v with VStr s => Some s | _ => None end.
Definition as_num (v : Value) : option Q :=
  match v with VNum q => Some q | _ => None end.
Definition as_int (v : Value) : option Z :=
  match v with
  | VNum q =>
      if Qnum q mod Zpos (Qden q) =? 0 then Some (Qnum q / Zpos (Qden q))
      else None
  | _ => None
  end.

Definition typed_options (o : OptionValues) : option Options :=
  c ← as_elem (v_container o);
  t ← as_str (v_text o);
  pw ← as_int (v_panelWidth o);
  ph ← as_int (v_panelHeight o);
  ls ← as_num (v_ledSize o);
  sp ← as_num (v_spacing o);
  oc ← as_int (v_offColor o);
  ss ← as_num (v_scrollSpeed o);
  Some {| container := c; text := t; panelWidth := pw; panelHeight := ph;
          ledSize := ls; spacing := sp; offColor := oc; scrollSpeed := ss |}.

(** ** The display instance *)

(** A JavaScript value that is a boolean or undefined ([None]). *)
Abbreviation JsBool := (option bool).

Definition truthy (c : JsBool) : bool :=
  match c with Some true => true | _ => false end.

Abbreviation Bitmap := (list (list JsBool)).

(** The material of one LED, as far as [updateLEDs] writes it. *)
Record Led : Type := {
  color : Z;
  emissive : Z;
  emissiveIntensity : Q
}.

(** [this.colorSequence]: assigned once in the constructor, never written
    again (red, green, blue). *)
Definition colorSequence : list Z := [16711680; 65280; 255].

Record Display : Type := {
  options : Options;
  leds : list Led;
  ledStates : list (list JsBool);
  textBitmap : option Bitmap;
  scrollOffset : Q;
  currentColorIndex : Z
}.

Definition set_text (t : string) (o : Options) : Options :=
  {| container := container o; text := t; panelWidth := panelWidth o;
     panelHeight := panelHeight o; ledSize := ledSize o; spacing := spacing o;
     offColor := offColor o; scrollSpeed := scrollSpeed o |}.

Definition with_options (o : Options) (d : Display) : Display :=
  {| options := o; leds := leds d; ledStates := ledStates d;
     textBitmap := textBitmap d; scrollOffset := scrollOffset d;
     currentColorIndex := currentColorIndex d |}.

Definition with_textBitmap (b : option Bitmap) (d : Display) : Display :=
  {| options := options d; leds := leds d; ledStates := ledStates d;
     textBitmap := b; scrollOffset := scrollOffset d;
     currentColorIndex := currentColorIndex d |}.

Definition with_scrollOffset (q : Q) (d : Display) : Display :=
  {| options := options d; leds := leds d; ledStates := ledStates d;
     textBitmap := textBitmap d; scrollOffset := q;
     currentColorIndex := currentColorIndex d |}.

Definition with_currentColorIndex (i : Z) (d : Display) : Display :=
  {| options := options d; leds := leds d; ledStates := ledStates d;
     textBitmap := textBitmap d; scrollOffset := scrollOffset d;
     currentColorIndex := i |}.

Definition with_leds (l : list Led) (d : Display) : Display :=
  {| options := options d; leds := l; ledStates := ledStates d;
     textBitmap := textBitmap d; scrollOffset := scrollOffset d;
     currentColorIndex := currentColorIndex d |}.

Definition with_ledStates (g : list (list JsBool)) (d : Display) : Display :=
  {| options := options d; leds := leds d; ledStates := g;
     textBitmap := textBitmap d; scrollOffset := scrollOffset d;
     currentColorIndex := currentColorIndex d |}.

(** ** Loops and arrays *)

(** [for (let i = lo; i < hi; i++) body], threading the loop's state. *)
Fixpoint for_loop {S : Type} (n : nat) (i : Z) (body : Z → S → S) (s : S) : S :=
  match n with
  | O => s
  | Datatypes.S n' => for_loop n' (i + 1) body (body i s)
  end.

Definition for_range {S : Type} (lo hi : Z) (body : Z → S → S) (s : S) : S :=
  for_loop (Z.to_nat (hi - lo)) lo body s.

(** The same loop with a body that can throw. *)
Fixpoint for_loop_opt {S : Type} (n : nat) (i : Z) (body : Z → S → option S)
    (s : S) : option S :=
  match n with
  | O => Some s
  | Datatypes.S n' =>
      match body i s with
      | Some s' => for_loop_opt n' (i + 1) body s'
      | None => None
      end
  end.

Definition for_range_opt {S : Type} (lo hi : Z) (body : Z → S → option S)
    (s : S) : option S :=
  for_loop_opt (Z.to_nat (hi - lo)) lo body s.

(** [a[i] = v] on an array: in range it overwrites, at or past the end it
    extends the array ([hole] fills the gap; the loops of this program only
    ever write at the end, so no gap arises).  A negative [i] is not an array
    index and leaves the elements alone. *)
Definition arr_set {A : Type} (hole : A) (l : list A) (i : Z) (v : A) : list A :=
  if i <? 0 then l
  else
    let n := Z.to_nat i in
    if (n <? length l)%nat then <[n := v]> l
    else l ++ replicate (n - length l) hole ++ [v].

(** [bm[y][x]]: undefined past the end of the row.  (A missing row would
    throw; every use below first checks that the row exists.) *)
Definition cell_at (bm : Bitmap) (y x : Z) : JsBool :=
  if (0 <=? y) && (0 <=? x) then
    match bm !! Z.to_nat y with
    | Some row => default None (row !! Z.to_nat x)
    | None => None
    end
  else None.

(** [bm[0].length]; every use is guarded by a test that row 0 exists. *)
Definition bitmap_width (bm : Bitmap) : Z :=
  match bm with
  | row :: _ => Z.of_nat (length row)
  | [] => 0
  end.

Definition bitmap_height (bm : Bitmap) : Z := Z.of_nat (length bm).

(** ** The browser: element ids, and what the program does to the page *)

Inductive Event : Type :=
  | ConsoleError (msg : string)
  | AppendChild (parent : Element)
  | AnimationFrameRequested
  | Rendered (frame : list Led)
  | ResizeListenerAdded.

Record World : Type := {
  elements : gmap string Element;
  events : list Event
}.

(** A computation that acts on the page and either returns or throws. *)
Definition Eff (A : Type) : Type := World → World * option A.

Definition ret {A : Type} (a : A) : Eff A := λ w, (w, Some a).

Definition throw {A : Type} : Eff A := λ w, (w, None).

Definition bind {A B : Type} (m : Eff A) (k : A → Eff B) : Eff B :=
  λ w, match m w with
       | (w', Some a) => k a w'
       | (w', None) => (w', None)
       end.

Definition emit (e : Event) : Eff unit :=
  λ w, ({| elements := elements w; events := events w ++ [e] |}, Some tt).

Definition lift_option {A : Type} (o : option A) : Eff A :=
  match o with
  | Some a => ret a
  | None => throw
  end.

Definition getElementById (id : string) : Eff (option Element) :=
  λ w, (w, Some (elements w !! id)).

Notation "x <~ m ; k" := (bind m (λ x, k))
  (at level 20, m at level 100, k at level 200, only parsing).

(** ** The methods of PremiumLEDDisplay *)

Definition fontSize : Z := 32.

(** [canvas.width = text.length * fontSize * 0.8]; the canvas keeps the
    integer part. *)
Definition canvas_width (t : string) : Z :=
  Qfloor (inject_Z (Z.of_nat (String.length t)) * inject_Z fontSize * (8 # 10)).

Definition canvas_height : Z := fontSize * 2.

(** [data[pixelIndex] > 128]; a missing entry is undefined, which is not
    greater than 128. *)
Definition bright (data : list Z) (pixelIndex : Z) : JsBool :=
  Some (match data !! Z.to_nat pixelIndex with
        | Some v => 128 <? v
        | None => false
        end).

(** Source lines 135-144. *)
Definition threshold (data : list Z) (w h : Z) : Bitmap :=
  for_range 0 h
    (λ y bm,
       arr_set [] bm y
         (for_range 0 w
            (λ x row, arr_set None row x (bright data ((y * w + x) * 4)))
            []))
    [].

(** Source lines 146-162. *)
Definition resize_rows (bm : Bitmap) (ph : Z) : Bitmap :=
  if bitmap_height bm >? ph then
    let scaleFactor : Q := (inject_Z ph / inject_Z (bitmap_height bm))%Q in
    for_range 0 ph
      (λ y newBitmap,
         let srcY :=
           Z.min (Qfloor (inject_Z y / scaleFactor)%Q) (bitmap_height bm - 1) in
         arr_set [] newBitmap y
           (for_range 0 (bitmap_width bm)
              (λ x row, arr_set None row x (cell_at bm srcY x))
              []))
      []
  else bm.

(** The material every LED starts with (source lines 182-188). *)
Definition new_led (oc : Z) : Led :=
  {| color := oc; emissive := 1114112; emissiveIntensity := 2 # 10 |}.

(** [Array(n).fill(v)]: a RangeError unless [n] is a valid array length. *)
Definition new_array {A : Type} (n : Z) (v : A) : option (list A) :=
  if (0 <=? n) && (n <? 2 ^ 32) then Some (replicate (Z.to_nat n) v) else None.

(** Source lines 165-208; the scene, the backing board and the border are
    rendering only and are left out. *)
Definition createLEDs (d : Display) : option Display :=
  let o := options d in
  skeleton ← new_array (panelHeight o) tt;
  states ← mapM (λ _ : unit, new_array (panelWidth o) (Some false)) skeleton;
  let ls :=
    for_range 0 (panelHeight o)
      (λ y l, for_range 0 (panelWidth o) (λ x l', l' ++ [new_led (offColor o)]) l)
      [] in
  Some (with_leds ls (with_ledStates states d)).

(** [this.ledStates[y][x] = v]; a missing row throws. *)
Definition grid_set (g : list (list JsBool)) (y x : Z) (v : JsBool)
    : option (list (list JsBool)) :=
  if y <? 0 then None
  else
    match g !! Z.to_nat y with
    | Some row => Some (<[Z.to_nat y := arr_set None row x v]> g)
    | None => None
    end.

(** The value [updateLEDs] computes for [isOn] at panel cell (y, x) (source
    lines 304-315). *)
Definition isOn_at (d : Display) (y x : Z) : JsBool :=
  let bitmapX := x + Qfloor (scrollOffset d) in
  match textBitmap d with
  | Some bm =>
      if (y <? bitmap_height bm) && (0 <=? bitmapX)
         && (bitmapX <? bitmap_width bm)
      then cell_at bm y bitmapX
      else Some false
  | None => Some false
  end.

(** [this.colorSequence[i]]; undefined outside the palette, and cloning an
    undefined colour throws. *)
Definition color_at (i : Z) : option Z :=
  if i <? 0 then None else colorSequence !! Z.to_nat i.

(** The body of the inner loop of [updateLEDs] (source lines 304-332). *)
Definition updateLED (y x : Z) (d : Display) : option Display :=
  let o := options d in
  let isOn := isOn_at d y x in
  let ledIndex := y * panelWidth o + x in
  if ledIndex <? Z.of_nat (length (leds d)) then
    led ← (if truthy isOn then
             currentColor ← color_at (currentColorIndex d);
             Some {| color := currentColor; emissive := currentColor;
                     emissiveIntensity := 7 # 10 |}
           else
             Some {| color := offColor o; emissive := offColor o;
                     emissiveIntensity := 1 # 10 |});
    g ← grid_set (ledStates d) y x isOn;
    Some (with_ledStates g (with_leds (<[Z.to_nat ledIndex := led]> (leds d)) d))
  else Some d.

(** Source lines 297-335. *)
Definition updateLEDs (d : Display) : option Display :=
  for_range_opt 0 (panelHeight (options d))
    (λ y, for_range_opt 0 (panelWidth (options d)) (updateLED y))
    d.

(** Source lines 337-354; [%] is the truncated remainder, [Z.rem]. *)
Definition updateScrollPosition (d : Display) : Display :=
  match textBitmap d with
  | None => d
  | Some bm =>
      if bitmap_height bm =? 0 then d
      else
        let textWidth := bitmap_width bm in
        let o := options d in
        let offset := (scrollOffset d + scrollSpeed o)%Q in
        if Qle_bool (inject_Z (textWidth + panelWidth o)) offset then
          with_currentColorIndex
            (Z.rem (currentColorIndex d + 1) (Z.of_nat (length colorSequence)))
            (with_scrollOffset (inject_Z (- panelWidth o)) d)
        else with_scrollOffset offset d
  end.

(** One frame of [animate] (source lines 356-369); the sway of the border is
    rendering only. *)
Definition animate (d : Display) : Eff Display :=
  _ <~ emit AnimationFrameRequested ;
  d' <~ lift_option (updateLEDs (updateScrollPosition d)) ;
  _ <~ emit (Rendered (leds d')) ;
  ret d'.

Section Canvas.

(** [getImageData t w h]: the RGBA bytes that [ctx.getImageData] hands back
    after the text [t] was drawn on a black canvas of [w] by [h] pixels, or
    [None] when the browser throws instead. *)
Variable getImageData : string → Z → Z → option (list Z).

(** The bitmap [createTextBitmap] computes from the pixels. *)
Definition rasterize (data : list Z) (t : string) (ph : Z) : Bitmap :=
  resize_rows (threshold data (canvas_width t) canvas_height) ph.

(** Source lines 113-163. *)
Definition createTextBitmap (d : Display) : option Display :=
  let o := options d in
  data ← getImageData (text o) (canvas_width (text o)) canvas_height;
  Some (with_textBitmap (Some (rasterize data (text o) (panelHeight o))) d).

(** Source lines 372-376: the display a call of [setText] returns with, and
    [None] when the call throws; [setText_leaves] below is the display the
    call leaves behind in either case. *)
Definition setText (t : string) (d : Display) : option Display :=
  let d1 := with_options (set_text t (options d)) d in
  let d2 := with_scrollOffset (inject_Z (- panelWidth (options d1))) d1 in
  createTextBitmap d2.

(** The display after a call of [setText], whether it returned or threw
    (source lines 372-376 with 113-136): the text and the offset are written
    first (lines 373-374); a read-back that throws does so at line 132, before
    line 136 touches the bitmap, so the old bitmap stays. *)
Definition setText_leaves (t : string) (d : Display) : Display :=
  let d1 := with_options (set_text t (options d)) d in
  let d2 := with_scrollOffset (inject_Z (- panelWidth (options d1))) d1 in
  match createTextBitmap d2 with
  | Some d3 => d3
  | None => d2
  end.

(** The state the constructor's field initialisers leave (source lines
    15-33), before it calls any method. *)
Definition initial_fields (o : Options) : Display :=
  {| options := o; leds := []; ledStates := []; textBitmap := None;
     scrollOffset := 0; currentColorIndex := 0 |}.

(** [init] (source lines 45-90): of the scene set-up only the attachment of
    the renderer's canvas to the container is recorded. *)
Definition init (d : Display) : Eff unit :=
  emit (AppendChild (container (options d))).

(** The constructor (source lines 2-43), on options of the types
    [typed_options] accepts.  On other options the first step answers [None]
    without an event: that marks the boundary of the model, not a throw of
    the code. *)
Definition PremiumLEDDisplay_new (opts : gmap string Value) : Eff Display :=
  o <~ lift_option (typed_options (default_options opts)) ;
  let d0 := initial_fields o in
  _ <~ init d0 ;
  d1 <~ lift_option (createTextBitmap d0) ;
  d2 <~ lift_option (createLEDs d1) ;
  d3 <~ animate d2 ;
  _ <~ emit ResizeListenerAdded ;
  ret d3.

(** Source lines 380-390.  [{container, ...options}]: the properties of
    [options] are copied over the one just written. *)
Definition initLEDBanner (containerId : string) (opts : gmap string Value)
    : Eff (option Display) :=
  c <~ getElementById containerId ;
  match c with
  | Some el =>
      d <~ PremiumLEDDisplay_new (opts ∪ {[ "container" := VObj el ]}) ;
      ret (Some d)
  | None =>
      _ <~ emit (ConsoleError "Container not found") ;
      ret None
  end.

End Canvas.

(** ** Vocabulary of the properties, and sample displays *)

Definition banner0 : Display :=
  {| options := {| container := document_body; text := "A"; panelWidth := 10;
                   panelHeight := 2; ledSize := 85 # 100; spacing := 12 # 10;
                   offColor := 1048576; scrollSpeed := 1 |};
     leds := [];
     ledStates := [];
     textBitmap := Some [[Some true; Some false; Some true];
                         [Some false; Some true; Some false]];
     scrollOffset := 0;
     currentColorIndex := 0 |}.

(** The offset range of the specification: [-panelWidth, bitmapWidth + panelWidth). *)
Definition offset_in_range (d : Display) (bm : Bitmap) : Prop :=
  (inject_Z (- panelWidth (options d)) <= scrollOffset d)%Q
  ∧ (scrollOffset d < inject_Z (bitmap_width bm + panelWidth (options d)))%Q.

(** A browser whose canvas reads back all black, whatever was drawn; on a
    canvas without pixels it throws. *)
Definition black_canvas : string → Z → Z → option (list Z) :=
  λ _ w h, if (w <=? 0) || (h <=? 0) then None
           else Some (concat (replicate (Z.to_nat (w * h)) [0; 0; 0; 255])).

(** The array whose entry [k] is [f k], for [k] below [n]. *)
Definition tabulate {A : Type} (n : nat) (f : Z → A) : list A :=
  map (λ k, f (Z.of_nat k)) (seq 0 n).

Definition rectangular (w : nat) (bm : Bitmap) : Prop :=
  Forall (λ row, length row = w) bm.

(** The source row the downsampling picks for output row [y]. *)
Definition source_row (H ph y : Z) : Z :=
  Z.min (Qfloor (inject_Z y / (inject_Z ph / inject_Z H))%Q) (H - 1).

(** [g[r][c]], when the grid has that cell. *)
Definition grid_cell (g : list (list JsBool)) (r c : Z) : option JsBool :=
  row ← g !! Z.to_nat r; row !! Z.to_nat c.

(** The grid has [ph] rows of [pw] cells. *)
Definition grid_shape (ph pw : Z) (g : list (list JsBool)) : Prop :=
  Z.of_nat (length g) = ph ∧ Forall (λ row, Z.of_nat (length row) = pw) g.

(** What the constructor establishes and the frames keep: a grid of
    panelHeight by panelWidth cells, an LED for each of them, and a colour
    index inside the palette. *)
Definition panel_ready (d : Display) : Prop :=
  grid_shape (panelHeight (options d)) (panelWidth (options d)) (ledStates d)
  ∧ panelHeight (options d) * panelWidth (options d) ≤ Z.of_nat (length (leds d))
  ∧ 0 ≤ currentColorIndex d < Z.of_nat (length colorSequence).

(** What the recompute leaves alone. *)
Definition same_inputs (d d' : Display) : Prop :=
  options d' = options d
  ∧ textBitmap d' = textBitmap d
  ∧ scrollOffset d' = scrollOffset d
  ∧ currentColorIndex d' = currentColorIndex d
  ∧ length (leds d') = length (leds d).

(** The panel of the specification's scenario: 10 by 2, bitmap
    [[T,F,T],[F,T,F]], offset 0, speed 1, all LEDs off. *)
Definition banner_ready : Display :=
  with_leds (replicate 20 (new_led 1048576))
    (with_ledStates (replicate 2 (replicate 10 (Some false))) banner0).

Definition valid_length (n : Z) : Prop := 0 ≤ n < 2 ^ 32.

(** The display [createLEDs] leaves, when it returns. *)
Definition fresh_panel (d : Display) : Display :=
  let o := options d in
  with_leds
    (replicate (Z.to_nat (panelHeight o) * Z.to_nat (panelWidth o))
       (new_led (offColor o)))
    (with_ledStates
       (replicate (Z.to_nat (panelHeight o))
          (replicate (Z.to_nat (panelWidth o)) (Some false)))
       d).

(** A page with one element, whose id is banner. *)
Definition page0 : World :=
  {| elements := {[ "banner" := 7%positive ]}; events := [] |}.

(** Options that leave the panel width and the scroll speed at zero. *)
Definition zero_options : gmap string Value :=
  {[ "text" := VStr "A"; "panelHeight" := VNum 2;
     "panelWidth" := VNum 0; "scrollSpeed" := VNum 0 ]}.

(** The options the constructor stores when it is given none. *)
Definition all_defaults : Options :=
  {| container := document_body; text := default_text; panelWidth := 80;
     panelHeight := 10; ledSize := 85 # 100; spacing := 12 # 10;
     offColor := 1048576; scrollSpeed := 4 # 10 |}.

(** The options stored for [zero_options] on the element 7. *)
Definition banner_options : Options :=
  {| container := 7%positive; text := "A"; panelWidth := 80; panelHeight := 2;
     ledSize := 85 # 100; spacing := 12 # 10; offColor := 1048576;
     scrollSpeed := 4 # 10 |}.

(** A browser whose canvas hands back an empty buffer whatever its size. *)
Definition lenient_canvas : string → Z → Z → option (list Z) :=
  λ _ _ _, Some [].

(** ** Vocabulary of the further properties *)

(** [k] calls of [updateScrollPosition] in a row.  The offsets are exact
    sums here and rounded sums in the code, so only what rounding cannot
    change is stated of them. *)
Definition ticks (k : nat) (d : Display) : Display :=
  Nat.iter k updateScrollPosition d.

(** The sample panel with the speed reversed. *)
Definition banner_backward : Display :=
  with_options
    {| container := document_body; text := "A"; panelWidth := 10;
       panelHeight := 2; ledSize := 85 # 100; spacing := 12 # 10;
       offColor := 1048576; scrollSpeed := - (1) |}
    banner0.

(** The material [updateLEDs] gives the LED of cell (y, x) (source lines
    320-330): the current palette colour, glowing, when the cell is on, the
    off colour, dim, when it is not. *)
Definition led_for (d : Display) (y x : Z) : option Led :=
  if truthy (isOn_at d y x) then
    currentColor ← color_at (currentColorIndex d);
    Some {| color := currentColor; emissive := currentColor;
            emissiveIntensity := 7 # 10 |}
  else
    Some {| color := offColor (options d); emissive := offColor (options d);
            emissiveIntensity := 1 # 10 |}.

(** The material of an LED that is off (source lines 327-329). *)
Definition off_led (o : Options) : Led :=
  {| color := offColor o; emissive := offColor o; emissiveIntensity := 1 # 10 |}.

(** The displays a page can hold: the one the constructor returned, and from
    there any number of frames and of calls of [setText]; a call of [setText]
    may return or throw, and the display it leaves behind stays on the page
    either way. *)
Inductive reachable (getImageData : string → Z → Z → option (list Z))
    (opts : gmap string Value) : Display → Prop :=
  | reach_new (w w' : World) (d : Display) :
      PremiumLEDDisplay_new getImageData opts w = (w', Some d) →
      reachable getImageData opts d
  | reach_frame (d : Display) (w w' : World) (d' : Display) :
      reachable getImageData opts d →
      animate d w = (w', Some d') →
      reachable getImageData opts d'
  | reach_setText (d : Display) (t : string) (d' : Display) :
      reachable getImageData opts d →
      setText getImageData t d = Some d' →
      reachable getImageData opts d'
  | reach_setText_thrown (d : Display) (t : string) :
      reachable getImageData opts d →
      setText getImageData t d = None →
      reachable getImageData opts (setText_leaves getImageData t d).

(** What every such display satisfies: the panel is ready, its dimensions are
    at least 1, the options other than the text are those the constructor
    stored, and the bitmap is a rectangle the rasterizer made for some text
    (the stored one, unless the last call of [setText] threw). *)
Definition running (opts : gmap string Value) (d : Display) : Prop :=
  panel_ready d
  ∧ 1 ≤ panelHeight (options d) ∧ 1 ≤ panelWidth (options d)
  ∧ (∃ o, typed_options (default_options opts) = Some o
          ∧ options d = set_text (text (options d)) o)
  ∧ ∃ bm, textBitmap d = Some bm
          ∧ bm ≠ []
          ∧ (∃ t, rectangular (Z.to_nat (canvas_width t)) bm)
          ∧ bitmap_height bm = Z.min (panelHeight (options d)) canvas_height.

(** Where [createLEDs] puts the LED of cell (y, x) (source lines 199-203):
    columns run along the first axis, rows are counted from the top of the
    board, all LEDs lie in the plane 0. *)
Definition led_position (o : Options) (y x : Z) : Q * Q * Q :=
  (inject_Z x * spacing o, inject_Z (panelHeight o - 1 - y) * spacing o, 0)%Q.

(** The positions of the LEDs in the order [createLEDs] pushes them (source
    lines 194-208). *)
Definition led_positions (o : Options) : list (Q * Q * Q) :=
  for_range 0 (panelHeight o)
    (λ y l, for_range 0 (panelWidth o) (λ x l', l' ++ [led_position o y x]) l)
    [].

(** Options that also name a container of their own. *)
Definition own_container_options : gmap string Value :=
  {[ "text" := VStr "A"; "panelHeight" := VNum 2; "panelWidth" := VNum 3;
     "container" := VObj 9%positive ]}.

(** Options with a panel height that is no array length. *)
Definition bad_height_options : gmap string Value :=
  {[ "text" := VStr "A"; "panelHeight" := VNum (- (1)) ]}.

(** What [setText] leaves alone: the colour index, the LEDs, the grid and
    every option but the text. *)
Definition setText_keeps (d d' : Display) : Prop :=
  currentColorIndex d' = currentColorIndex d
  ∧ container (options d') = container (options d)
  ∧ panelWidth (options d') = panelWidth (options d)
  ∧ panelHeight (options d') = panelHeight (options d)
  ∧ ledSize (options d') = ledSize (options d)
  ∧ spacing (options d') = spacing (options d)
  ∧ offColor (options d') = offColor (options d)
  ∧ scrollSpeed (options d') = scrollSpeed (options d)
  ∧ leds d' = leds d
  ∧ ledStates d' = ledStates d.

(** * Properties *)

(** ** The scroll and colour controller *)

Lemma updateScrollPosition_step (d : Display) (bm : Bitmap) :
  textBitmap d = Some bm → bm ≠ [] →
  updateScrollPosition d =
    let offset := (scrollOffset d + scrollSpeed (options d))%Q in
    if Qle_bool (inject_Z (bitmap_width bm + panelWidth (options d))) offset then
      with_currentColorIndex
        (Z.rem (currentColorIndex d + 1) (Z.of_nat (length colorSequence)))
        (with_scrollOffset (inject_Z (- panelWidth (options d))) d)
    else with_scrollOffset offset d.
Proof.
  intros Hbm Hne. unfold updateScrollPosition. rewrite Hbm.
  destruct bm as [|r bm']; [done|]. reflexivity.
Qed.

Lemma updateScrollPosition_frame (d : Display) :
  options (updateScrollPosition d) = options d
  ∧ textBitmap (updateScrollPosition d) = textBitmap d
  ∧ leds (updateScrollPosition d) = leds d
  ∧ ledStates (updateScrollPosition d) = ledStates d.
Proof.
  unfold updateScrollPosition.
  destruct (textBitmap d) as [bm|] eqn:E; [|done].
  destruct (bitmap_height bm =? 0); [done|].
  cbv zeta. destruct (Qle_bool _ _); done.
Qed.

(** C2: one tick either advances the offset by the speed and keeps the colour
    index (when the advanced offset is below bitmapWidth + panelWidth), or
    resets the offset to -panelWidth and moves the colour index to the next
    palette entry; there is no third outcome. *)
Theorem tick_two_outcomes (d : Display) (bm : Bitmap) :
  textBitmap d = Some bm → bm ≠ [] →
  let d' := updateScrollPosition d in
  let advanced := (scrollOffset d + scrollSpeed (options d))%Q in
  let bound := inject_Z (bitmap_width bm + panelWidth (options d)) in
  ((advanced < bound)%Q →
     scrollOffset d' = advanced ∧ currentColorIndex d' = currentColorIndex d)
  ∧ (¬ (advanced < bound)%Q →
     scrollOffset d' = inject_Z (- panelWidth (options d))
     ∧ currentColorIndex d'
       = Z.rem (currentColorIndex d + 1) (Z.of_nat (length colorSequence))
     ∧ (0 ≤ currentColorIndex d →
        currentColorIndex d'
        = (currentColorIndex d + 1) mod Z.of_nat (length colorSequence))).
Proof.
  intros Hbm Hne d' advanced bound. subst d'.
  rewrite (updateScrollPosition_step d bm Hbm Hne). cbv zeta.
  fold advanced. fold bound.
  destruct (Qle_bool bound advanced) eqn:E.
  - apply Qle_bool_iff in E. split.
    + intros Hlt. exfalso. apply (Qlt_not_le _ _ Hlt E).
    + intros _. cbn. repeat split; [].
      intros Hci. apply Z.rem_mod_nonneg; lia.
  - split.
    + intros _. done.
    + intros Hn. exfalso. apply Hn. apply Qnot_le_lt. intros Hle.
      apply Qle_bool_iff in Hle. congruence.
Qed.

Lemma tick_two_outcomes_witness :
  scrollOffset (updateScrollPosition banner0) = (0 + 1)%Q
  ∧ currentColorIndex (updateScrollPosition banner0) = 0.
Proof.
  refine (proj1 (tick_two_outcomes banner0 _ eq_refl _) _).
  - discriminate.
  - reflexivity.
Defined.

(** The wrap at the exact bound: with bitmap width 3, panel width 10 and speed
    1, a tick from offset 12 resets to -10 and advances the colour. *)
Example tick_wraps_at_bound :
  let d := updateScrollPosition (with_scrollOffset 12 banner0) in
  scrollOffset d = inject_Z (-10) ∧ currentColorIndex d = 1.
Proof. split; reflexivity. Qed.

Lemma bitmap_width_nonneg (bm : Bitmap) : 0 ≤ bitmap_width bm.
Proof. destruct bm; cbn; lia. Qed.

(** C6: a tick keeps the offset inside [-panelWidth, bitmapWidth + panelWidth)
    when it starts there and 0 < speed < panelWidth. *)
Theorem tick_preserves_range (d : Display) (bm : Bitmap) :
  textBitmap d = Some bm →
  offset_in_range d bm →
  (0 < scrollSpeed (options d))%Q →
  (scrollSpeed (options d) < inject_Z (panelWidth (options d)))%Q →
  offset_in_range (updateScrollPosition d) bm.
Proof.
  intros Hbm [Hlo Hhi] Hpos Hlt.
  pose proof (bitmap_width_nonneg bm) as Hw.
  assert (Hpw : 0 < panelWidth (options d)).
  { rewrite Zlt_Qlt. eapply Qlt_trans; eauto. }
  unfold offset_in_range.
  destruct (updateScrollPosition_frame d) as (Ho & _). rewrite Ho.
  unfold updateScrollPosition. rewrite Hbm.
  destruct (bitmap_height bm =? 0); [done|]. cbv zeta.
  destruct (Qle_bool _ _) eqn:E; cbn [scrollOffset with_scrollOffset with_currentColorIndex].
  - split; [apply Qle_refl|]. rewrite <- Zlt_Qlt. lia.
  - split.
    + lra.
    + apply Qnot_le_lt. intros Hle. apply Qle_bool_iff in Hle. congruence.
Qed.

Lemma tick_preserves_range_witness :
  offset_in_range (updateScrollPosition banner0)
    [[Some true; Some false; Some true]; [Some false; Some true; Some false]].
Proof.
  apply (tick_preserves_range banner0 _ eq_refl).
  - split; [discriminate | reflexivity].
  - reflexivity.
  - reflexivity.
Defined.

(** ** setText *)

(** When the read-back returns: setText stores the new text, replaces the
    bitmap by the rasterization of the new text, sets the offset to
    -panelWidth, and leaves the colour index, the LEDs, the grid and every
    other option as they were. *)
Lemma setText_frame (getImageData : string → Z → Z → option (list Z))
    (d : Display) (newText : string) (data : list Z) :
  getImageData newText (canvas_width newText) canvas_height = Some data →
  ∃ d', setText getImageData newText d = Some d'
    ∧ textBitmap d' = Some (rasterize data newText (panelHeight (options d)))
    ∧ scrollOffset d' = inject_Z (- panelWidth (options d))
    ∧ currentColorIndex d' = currentColorIndex d
    ∧ text (options d') = newText
    ∧ container (options d') = container (options d)
    ∧ panelWidth (options d') = panelWidth (options d)
    ∧ panelHeight (options d') = panelHeight (options d)
    ∧ ledSize (options d') = ledSize (options d)
    ∧ spacing (options d') = spacing (options d)
    ∧ offColor (options d') = offColor (options d)
    ∧ scrollSpeed (options d') = scrollSpeed (options d)
    ∧ leds d' = leds d
    ∧ ledStates d' = ledStates d.
Proof.
  intros Hdata. unfold setText, createTextBitmap.
  cbn -[canvas_width canvas_height rasterize].
  rewrite Hdata. eexists. split; [reflexivity|]. repeat split.
Qed.

(** When the canvas throws, so does setText. *)
Lemma setText_throws (getImageData : string → Z → Z → option (list Z))
    (d : Display) (newText : string) :
  getImageData newText (canvas_width newText) canvas_height = None →
  setText getImageData newText d = None.
Proof.
  intros H. unfold setText, createTextBitmap.
  cbn -[canvas_width canvas_height rasterize]. by rewrite H.
Qed.

Lemma setText_leaves_returned (getImageData : string → Z → Z → option (list Z))
    (t : string) (d d' : Display) :
  setText getImageData t d = Some d' → setText_leaves getImageData t d = d'.
Proof. unfold setText, setText_leaves. cbv zeta. by intros ->. Qed.

Lemma setText_leaves_thrown (getImageData : string → Z → Z → option (list Z))
    (t : string) (d : Display) :
  setText getImageData t d = None →
  setText_leaves getImageData t d
  = with_scrollOffset (inject_Z (- panelWidth (options d)))
      (with_options (set_text t (options d)) d).
Proof. unfold setText, setText_leaves. cbv zeta. by intros ->. Qed.

(** C5 (amended): when the canvas read-back returns its pixels, setText
    stores the new text, replaces the bitmap by the rasterization of the new
    text, sets the offset to -panelWidth and leaves the colour index, the
    LEDs, the grid and every other option as they were.  When the read-back
    throws, setText throws too, after having stored the new text and set the
    offset to -panelWidth: the bitmap is not replaced, and the rest is left
    as it was. *)
Theorem setText_outcome (getImageData : string → Z → Z → option (list Z))
    (d : Display) (newText : string) :
  (∀ data,
     getImageData newText (canvas_width newText) canvas_height = Some data →
     ∃ d', setText getImageData newText d = Some d'
       ∧ setText_leaves getImageData newText d = d'
       ∧ textBitmap d' = Some (rasterize data newText (panelHeight (options d)))
       ∧ scrollOffset d' = inject_Z (- panelWidth (options d))
       ∧ text (options d') = newText
       ∧ setText_keeps d d')
  ∧ (getImageData newText (canvas_width newText) canvas_height = None →
     setText getImageData newText d = None
     ∧ textBitmap (setText_leaves getImageData newText d) = textBitmap d
     ∧ scrollOffset (setText_leaves getImageData newText d)
       = inject_Z (- panelWidth (options d))
     ∧ text (options (setText_leaves getImageData newText d)) = newText
     ∧ setText_keeps d (setText_leaves getImageData newText d)).
Proof.
  split.
  - intros data Hdata.
    destruct (setText_frame getImageData d newText data Hdata)
      as (d' & Hset & Hbm & Hoff & Hci & Htext & Hrest).
    exists d'. split; [exact Hset|].
    split; [by apply setText_leaves_returned|].
    split; [exact Hbm|]. split; [exact Hoff|]. split; [exact Htext|].
    split; [exact Hci | exact Hrest].
  - intros Hthrow.
    pose proof (setText_throws getImageData d newText Hthrow) as Hset.
    split; [exact Hset|].
    rewrite (setText_leaves_thrown getImageData newText d Hset).
    repeat split.
Qed.

Lemma setText_outcome_witness :
  (∃ d', setText black_canvas "HI" banner_ready = Some d'
     ∧ setText_leaves black_canvas "HI" banner_ready = d'
     ∧ textBitmap d'
       = Some (rasterize (concat (replicate 3264 [0; 0; 0; 255])) "HI" 2)
     ∧ scrollOffset d' = inject_Z (- 10)
     ∧ text (options d') = "HI"
     ∧ setText_keeps banner_ready d')
  ∧ setText black_canvas "" banner_ready = None
  ∧ textBitmap (setText_leaves black_canvas "" banner_ready)
    = textBitmap banner_ready.
Proof.
  destruct (setText_outcome black_canvas banner_ready "HI") as [Hret _].
  destruct (setText_outcome black_canvas banner_ready "") as [_ Hthrow].
  split.
  - apply Hret. vm_compute. reflexivity.
  - destruct Hthrow as (Hnone & Hbm & _); [reflexivity|]. by split.
Defined.

(** ** Arrays built by a counting loop *)

Lemma length_tabulate {A : Type} (n : nat) (f : Z → A) :
  length (tabulate n f) = n.
Proof. unfold tabulate. by rewrite length_map, length_seq. Qed.

Lemma lookup_tabulate {A : Type} (n : nat) (f : Z → A) (k : nat) :
  (k < n)%nat → tabulate n f !! k = Some (f (Z.of_nat k)).
Proof.
  intros Hk. unfold tabulate. rewrite list_lookup_fmap.
  rewrite lookup_seq_lt by done. reflexivity.
Qed.

Lemma tabulate_S {A : Type} (n : nat) (f : Z → A) :
  tabulate (S n) f = tabulate n f ++ [f (Z.of_nat n)].
Proof. unfold tabulate. by rewrite seq_S, map_app. Qed.

Lemma arr_set_end {A : Type} (hole : A) (l : list A) (v : A) :
  arr_set hole l (Z.of_nat (length l)) v = l ++ [v].
Proof.
  unfold arr_set.
  destruct (Z.ltb_spec (Z.of_nat (length l)) 0) as [H|H]; [lia|].
  rewrite Nat2Z.id.
  destruct (Nat.ltb_spec (length l) (length l)) as [H'|H']; [lia|].
  by rewrite Nat.sub_diag.
Qed.

Lemma for_loop_tabulate {A : Type} (hole : A) (f : Z → A) (n m : nat) :
  for_loop n (Z.of_nat m) (λ i l, arr_set hole l i (f i)) (tabulate m f)
  = tabulate (m + n) f.
Proof.
  revert m. induction n as [|n IH]; intros m; cbn [for_loop].
  - by rewrite Nat.add_0_r.
  - pose proof (arr_set_end hole (tabulate m f) (f (Z.of_nat m))) as E.
    rewrite length_tabulate in E. rewrite E, <- tabulate_S.
    replace (Z.of_nat m + 1) with (Z.of_nat (S m)) by lia.
    rewrite IH. f_equal. lia.
Qed.

Lemma for_range_tabulate {A : Type} (hole : A) (f : Z → A) (n : Z) :
  for_range 0 n (λ i l, arr_set hole l i (f i)) [] = tabulate (Z.to_nat n) f.
Proof.
  unfold for_range. rewrite Z.sub_0_r.
  apply (for_loop_tabulate hole f (Z.to_nat n) 0).
Qed.

(** Reading back every entry of an array of (possibly undefined) values
    gives the array. *)
Lemma tabulate_lookup_id {A : Type} (row : list (option A)) :
  tabulate (length row) (λ x, default None (row !! Z.to_nat x)) = row.
Proof.
  apply list_eq. intros k.
  destruct (decide (k < length row)%nat) as [Hk|Hk].
  - rewrite lookup_tabulate by done. rewrite Nat2Z.id.
    destruct (row !! k) eqn:E; [done|].
    apply lookup_ge_None in E. lia.
  - rewrite !lookup_ge_None_2; [done| lia |rewrite length_tabulate; lia].
Qed.

(** ** The rasterizer *)

Lemma threshold_tabulate (data : list Z) (w h : Z) :
  threshold data w h
  = tabulate (Z.to_nat h)
      (λ y, tabulate (Z.to_nat w) (λ x, bright data ((y * w + x) * 4))).
Proof.
  unfold threshold. rewrite for_range_tabulate.
  unfold tabulate at 1 3. apply map_ext. intros k.
  apply for_range_tabulate.
Qed.

Lemma threshold_height (data : list Z) (w h : Z) :
  0 ≤ h → bitmap_height (threshold data w h) = h.
Proof.
  intros Hh. unfold bitmap_height.
  rewrite threshold_tabulate, length_tabulate. lia.
Qed.

Lemma threshold_rectangular (data : list Z) (w h : Z) :
  rectangular (Z.to_nat w) (threshold data w h).
Proof.
  rewrite threshold_tabulate. unfold rectangular, tabulate at 1.
  apply Forall_fmap, Forall_forall. intros k _. cbn. apply length_tabulate.
Qed.

Lemma rectangular_width (w : nat) (bm : Bitmap) :
  rectangular w bm → bm ≠ [] → bitmap_width bm = Z.of_nat w.
Proof.
  intros Hr Hne. destruct bm as [|r bm']; [done|].
  apply Forall_cons in Hr as [Hr _]. cbn. by rewrite Hr.
Qed.

Lemma resize_rows_tabulate (bm : Bitmap) (ph : Z) :
  bitmap_height bm > ph →
  resize_rows bm ph
  = tabulate (Z.to_nat ph)
      (λ y, tabulate (Z.to_nat (bitmap_width bm))
              (λ x, cell_at bm
                      (Z.min (Qfloor (inject_Z y
                                      / (inject_Z ph / inject_Z (bitmap_height bm)))%Q)
                             (bitmap_height bm - 1))
                      x)).
Proof.
  intros Hgt. unfold resize_rows.
  destruct (Z.gtb_spec (bitmap_height bm) ph) as [_|H]; [|lia].
  cbv zeta. rewrite for_range_tabulate.
  unfold tabulate at 1 3. apply map_ext. intros k.
  apply for_range_tabulate.
Qed.

Lemma resize_rows_small (bm : Bitmap) (ph : Z) :
  bitmap_height bm ≤ ph → resize_rows bm ph = bm.
Proof.
  intros Hle. unfold resize_rows.
  destruct (Z.gtb_spec (bitmap_height bm) ph) as [H|_]; [lia|done].
Qed.

Lemma source_row_range (H ph y : Z) :
  0 < ph → ph < H → 0 ≤ y → 0 ≤ source_row H ph y < H.
Proof.
  intros Hph HH Hy. unfold source_row.
  assert (0 ≤ Qfloor (inject_Z y / (inject_Z ph / inject_Z H))%Q).
  { rewrite <- (Qfloor_Z 0). apply Qfloor_resp_le.
    apply Qle_shift_div_l.
    - apply Qlt_shift_div_l.
      + change 0%Q with (inject_Z 0). rewrite <- Zlt_Qlt. lia.
      + rewrite Qmult_0_l. change 0%Q with (inject_Z 0). rewrite <- Zlt_Qlt. lia.
    - change (inject_Z 0) with 0%Q. rewrite Qmult_0_l.
      change 0%Q with (inject_Z 0). rewrite <- Zle_Qle. lia. }
  lia.
Qed.

Lemma tabulate_ext {A : Type} (n : nat) (f g : Z → A) :
  (∀ k, (k < n)%nat → f (Z.of_nat k) = g (Z.of_nat k)) →
  tabulate n f = tabulate n g.
Proof.
  intros H. apply list_eq. intros k.
  destruct (decide (k < n)%nat) as [Hk|Hk].
  - rewrite !lookup_tabulate by done. f_equal. by apply H.
  - rewrite !lookup_ge_None_2; [done | |]; rewrite length_tabulate; lia.
Qed.

Lemma bitmap_width_lookup (w : nat) (bm : Bitmap) (k : nat) (row : list JsBool) :
  rectangular w bm → bm !! k = Some row →
  bitmap_width bm = Z.of_nat w ∧ length row = w.
Proof.
  intros Hr Hk. split.
  - apply rectangular_width; [done|]. by destruct bm.
  - unfold rectangular in Hr. rewrite Forall_lookup in Hr. by apply (Hr k).
Qed.

(** Downsampling a rectangular bitmap copies whole rows. *)
Lemma resize_rows_lookup (w : nat) (bm : Bitmap) (ph y : Z) :
  rectangular w bm → 0 < ph → ph < bitmap_height bm → 0 ≤ y < ph →
  resize_rows bm ph !! Z.to_nat y
  = bm !! Z.to_nat (source_row (bitmap_height bm) ph y).
Proof.
  intros Hr Hph HH Hy.
  rewrite resize_rows_tabulate by lia.
  rewrite lookup_tabulate by lia. rewrite Z2Nat.id by lia.
  fold (source_row (bitmap_height bm) ph y).
  pose proof (source_row_range (bitmap_height bm) ph y Hph HH (proj1 Hy)) as Hs.
  set (s := source_row (bitmap_height bm) ph y) in *.
  destruct (bm !! Z.to_nat s) as [row|] eqn:E.
  - destruct (bitmap_width_lookup w bm _ row Hr E) as [Hw Hl].
    f_equal. rewrite Hw, Nat2Z.id, <- Hl.
    rewrite <- (tabulate_lookup_id row) at 2.
    apply tabulate_ext. intros k Hk. unfold cell_at.
    destruct (Z.leb_spec 0 s); [|lia].
    destruct (Z.leb_spec 0 (Z.of_nat k)); [|lia].
    cbn. by rewrite E.
  - apply lookup_ge_None in E. unfold bitmap_height in *. lia.
Qed.

Lemma resize_rows_height (bm : Bitmap) (ph : Z) :
  0 ≤ ph → ph < bitmap_height bm → bitmap_height (resize_rows bm ph) = ph.
Proof.
  intros Hph HH. rewrite resize_rows_tabulate by lia.
  unfold bitmap_height at 1. rewrite length_tabulate. lia.
Qed.

(** C7: when the thresholded buffer is taller than the target height, the
    result has exactly the target height and its row y is the source row
    min(floor(y / (targetHeight / H)), H - 1), at full width; otherwise the
    buffer is returned as it is. *)
Theorem downsample_rows (data : list Z) (w H targetHeight : Z) :
  0 ≤ w → 0 ≤ H → 1 ≤ targetHeight →
  let src := threshold data w H in
  let out := resize_rows src targetHeight in
  (H > targetHeight →
     bitmap_height out = targetHeight
     ∧ ∀ y, 0 ≤ y < targetHeight →
         ∃ row,
           out !! Z.to_nat y = Some row
           ∧ src !! Z.to_nat
                   (Z.min (Qfloor (inject_Z y
                                   / (inject_Z targetHeight / inject_Z H))%Q)
                          (H - 1))
             = Some row
           ∧ Z.of_nat (length row) = w)
  ∧ (H ≤ targetHeight → out = src ∧ bitmap_height out = H).
Proof.
  intros Hw HH Hth src out.
  pose proof (threshold_height data w H HH) as Hheight. fold src in Hheight.
  pose proof (threshold_rectangular data w H) as Hrect. fold src in Hrect.
  split.
  - intros Hgt. split.
    + subst out. apply resize_rows_height; lia.
    + intros y Hy.
      pose proof (resize_rows_lookup _ src targetHeight y Hrect) as Hl.
      rewrite Hheight in Hl. unfold source_row in Hl.
      pose proof (source_row_range H targetHeight y) as Hs.
      unfold source_row in Hs.
      set (s := Z.min _ _) in *.
      destruct (src !! Z.to_nat s) as [row|] eqn:E.
      * exists row. split; [apply Hl; lia|]. split; [done|].
        destruct (bitmap_width_lookup _ src _ row Hrect E) as [_ Hlen]. lia.
      * apply lookup_ge_None in E. unfold bitmap_height in Hheight. lia.
  - intros Hle. subst out. rewrite resize_rows_small by lia. done.
Qed.

(** A thresholded buffer of 5 rows reduced to 2: row 1 of the result is
    source row floor(1 / (2/5)) = 2. *)
Lemma downsample_rows_witness :
  let src := threshold [255; 0; 0; 255; 0; 0; 0; 255; 255; 0; 0; 255;
                        0; 0; 0; 255; 255; 0; 0; 255] 1 5 in
  let out := resize_rows src 2 in
  (5 > 2 →
     bitmap_height out = 2
     ∧ ∀ y, 0 ≤ y < 2 →
         ∃ row,
           out !! Z.to_nat y = Some row
           ∧ src !! Z.to_nat
                   (Z.min (Qfloor (inject_Z y / (inject_Z 2 / inject_Z 5))%Q)
                          (5 - 1))
             = Some row
           ∧ Z.of_nat (length row) = 1)
  ∧ (5 ≤ 2 → out = src ∧ bitmap_height out = 5).
Proof.
  apply (downsample_rows _ 1 5 2); lia.
Defined.

Lemma resize_rows_rectangular (w : nat) (bm : Bitmap) (ph : Z) :
  rectangular w bm → bm ≠ [] → rectangular w (resize_rows bm ph).
Proof.
  intros Hr Hne.
  destruct (Z_le_gt_dec (bitmap_height bm) ph) as [Hle|Hgt].
  - by rewrite resize_rows_small.
  - rewrite resize_rows_tabulate by done.
    unfold rectangular, tabulate at 1.
    apply Forall_fmap, Forall_forall. intros k _. cbn.
    rewrite length_tabulate, (rectangular_width w bm Hr Hne). lia.
Qed.

Lemma canvas_width_formula (t : string) :
  canvas_width t = Z.of_nat (String.length t) * 256 / 10.
Proof.
  unfold canvas_width, Qfloor, fontSize. cbn. f_equal. lia.
Qed.

Lemma canvas_width_nonneg (t : string) : 0 ≤ canvas_width t.
Proof. rewrite canvas_width_formula. apply Z.div_pos; lia. Qed.

(** The bitmap of a text on a panel of height at least 1: it has rows, they
    are as wide as the canvas, and there are min(panelHeight, 64) of them. *)
Lemma rasterize_shape (data : list Z) (t : string) (ph : Z) :
  1 ≤ ph →
  rasterize data t ph ≠ []
  ∧ rectangular (Z.to_nat (canvas_width t)) (rasterize data t ph)
  ∧ bitmap_height (rasterize data t ph) = Z.min ph canvas_height.
Proof.
  intros Hph. unfold rasterize.
  set (src := threshold data (canvas_width t) canvas_height).
  assert (Hh : bitmap_height src = canvas_height)
    by (apply threshold_height; unfold canvas_height, fontSize; lia).
  assert (Hne : src ≠ []).
  { intros E. rewrite E in Hh. discriminate Hh. }
  assert (Hheight : bitmap_height (resize_rows src ph) = Z.min ph canvas_height).
  { destruct (Z_le_gt_dec (bitmap_height src) ph) as [Hle|Hgt].
    - rewrite resize_rows_small by done. lia.
    - rewrite resize_rows_height by lia. lia. }
  split; [|split; [|done]].
  - intros E. rewrite E in Hheight.
    unfold bitmap_height, canvas_height, fontSize in Hheight.
    cbn [length] in Hheight. lia.
  - apply resize_rows_rectangular; [apply threshold_rectangular | done].
Qed.

(** On a panel of height at least 1 the bitmap is exactly as wide as the
    canvas, floor(25.6 * length of the text); that is at least 25 for a
    non-empty text and 0 for the empty text. *)
Lemma rasterize_width (data : list Z) (t : string) (ph : Z) :
  1 ≤ ph →
  bitmap_width (rasterize data t ph) = Z.of_nat (String.length t) * 256 / 10
  ∧ (t ≠ "" → 25 ≤ bitmap_width (rasterize data t ph))
  ∧ (t = "" → bitmap_width (rasterize data t ph) = 0).
Proof.
  intros Hph.
  destruct (rasterize_shape data t ph Hph) as (Hne & Hr & _).
  assert (Hw : bitmap_width (rasterize data t ph) = canvas_width t).
  { rewrite (rectangular_width _ _ Hr Hne).
    pose proof (canvas_width_nonneg t). lia. }
  rewrite Hw, canvas_width_formula. clear Hne Hr Hw.
  split; [reflexivity|]. split.
  - intros Ht. destruct t as [|a t']; [congruence|].
    cbn [String.length]. apply Z.div_le_lower_bound; lia.
  - intros ->. reflexivity.
Qed.

(** ** The grid recompute *)

(** A loop whose body preserves an invariant indexed by the counter runs to
    completion and ends in the invariant. *)
Lemma for_loop_opt_invariant {St : Type} (I : Z → St → Prop)
    (body : Z → St → option St) (n : nat) (i : Z) (s : St) :
  I i s →
  (∀ j t, i ≤ j < i + Z.of_nat n → I j t → ∃ t', body j t = Some t' ∧ I (j + 1) t') →
  ∃ s', for_loop_opt n i body s = Some s' ∧ I (i + Z.of_nat n) s'.
Proof.
  revert i s. induction n as [|n IH]; intros i s Hi Hstep.
  - exists s. split; [done|]. by rewrite Z.add_0_r.
  - cbn [for_loop_opt].
    destruct (Hstep i s ltac:(lia) Hi) as (t & Ht & HIt). rewrite Ht.
    destruct (IH (i + 1) t HIt) as (s' & Hs' & HI').
    + intros j u Hj. apply Hstep. lia.
    + exists s'. split; [done|].
      by replace (i + Z.of_nat (S n)) with (i + 1 + Z.of_nat n) by lia.
Qed.

Lemma same_inputs_refl (d : Display) : same_inputs d d.
Proof. by repeat split. Qed.

Lemma same_inputs_trans (d1 d2 d3 : Display) :
  same_inputs d1 d2 → same_inputs d2 d3 → same_inputs d1 d3.
Proof.
  intros (?&?&?&?&?) (?&?&?&?&?). repeat split; congruence.
Qed.

Lemma isOn_at_same_inputs (d d' : Display) (y x : Z) :
  same_inputs d d' → isOn_at d' y x = isOn_at d y x.
Proof.
  intros (_ & Hb & Ho & _). unfold isOn_at. by rewrite Hb, Ho.
Qed.

Lemma grid_shape_lookup (ph pw : Z) (g : list (list JsBool)) (r : Z) :
  grid_shape ph pw g → 0 ≤ r < ph →
  ∃ row, g !! Z.to_nat r = Some row ∧ Z.of_nat (length row) = pw.
Proof.
  intros [Hlen Hrows] Hr.
  destruct (lookup_lt_is_Some_2 g (Z.to_nat r)) as [row Hrow]; [lia|].
  exists row. split; [done|].
  rewrite Forall_lookup in Hrows. by apply (Hrows _ _ Hrow).
Qed.

Lemma grid_shape_insert (ph pw : Z) (g : list (list JsBool)) (k : nat)
    (row : list JsBool) :
  grid_shape ph pw g → Z.of_nat (length row) = pw →
  grid_shape ph pw (<[k := row]> g).
Proof.
  intros [Hlen Hrows] Hrow. split.
  - by rewrite length_insert.
  - by apply Forall_insert.
Qed.

Lemma arr_set_in_range {A : Type} (hole : A) (l : list A) (i : Z) (v : A) :
  0 ≤ i < Z.of_nat (length l) → arr_set hole l i v = <[Z.to_nat i := v]> l.
Proof.
  intros Hi. unfold arr_set.
  destruct (Z.ltb_spec i 0); [lia|].
  destruct (Nat.ltb_spec (Z.to_nat i) (length l)); [done|lia].
Qed.

Lemma color_at_in_palette (i : Z) :
  0 ≤ i < Z.of_nat (length colorSequence) → is_Some (color_at i).
Proof.
  intros Hi. unfold color_at. destruct (Z.ltb_spec i 0); [lia|].
  apply lookup_lt_is_Some_2. lia.
Qed.

(** One cell: inside a ready panel the body of the loop writes [isOn] into
    the grid at (y, x) and nothing else into the grid. *)
Lemma updateLED_cell (d : Display) (y x : Z) :
  panel_ready d →
  0 ≤ y < panelHeight (options d) → 0 ≤ x < panelWidth (options d) →
  ∃ d', updateLED y x d = Some d'
    ∧ same_inputs d d'
    ∧ panel_ready d'
    ∧ ∀ r c, 0 ≤ r → 0 ≤ c →
        grid_cell (ledStates d') r c
        = if decide (r = y ∧ c = x) then Some (isOn_at d y x)
          else grid_cell (ledStates d) r c.
Proof.
  intros (Hshape & Hleds & Hci) Hy Hx.
  destruct (grid_shape_lookup _ _ _ y Hshape Hy) as (row & Hrow & Hlen).
  destruct (color_at_in_palette _ Hci) as [currentColor Hcolor].
  unfold updateLED. cbv zeta.
  destruct (Z.ltb_spec (y * panelWidth (options d) + x)
              (Z.of_nat (length (leds d)))) as [_|Hge]; [|nia].
  rewrite Hcolor. cbn [mbind option_bind].
  set (led := if truthy (isOn_at d y x) then _ else _).
  assert (is_Some led) as [led' ->] by (subst led; destruct (truthy _); eauto).
  cbn [mbind option_bind].
  unfold grid_set. destruct (Z.ltb_spec y 0); [lia|].
  rewrite Hrow. cbn [mbind option_bind].
  rewrite arr_set_in_range by lia.
  eexists. split; [reflexivity|]. split; [|split].
  - repeat split. cbn. by rewrite length_insert.
  - split; [|split]; cbn.
    + apply grid_shape_insert; [done|]. by rewrite length_insert.
    + by rewrite length_insert.
    + exact Hci.
  - intros r c Hr Hc. cbn [ledStates with_ledStates]. unfold grid_cell.
    destruct (decide (r = y ∧ c = x)) as [[-> ->]|Hne].
    + rewrite list_lookup_insert_eq by (apply lookup_lt_Some in Hrow; lia).
      cbn. rewrite list_lookup_insert_eq by lia. done.
    + destruct (decide (r = y)) as [->|Hry].
      * rewrite list_lookup_insert_eq by (apply lookup_lt_Some in Hrow; lia).
        rewrite Hrow. cbn.
        rewrite list_lookup_insert_ne; [done|].
        intros E. apply Hne. split; [done|]. lia.
      * rewrite list_lookup_insert_ne; [done|]. lia.
Qed.

Lemma panel_ready_nonneg (d : Display) :
  panel_ready d → 0 ≤ panelHeight (options d).
Proof. intros ([Hlen _] & _). lia. Qed.

(** One row: the inner loop writes [isOn] into every cell of row [y]. *)
Lemma updateLEDs_row (d : Display) (y : Z) :
  panel_ready d → 0 ≤ y < panelHeight (options d) →
  ∃ d', for_range_opt 0 (panelWidth (options d)) (updateLED y) d = Some d'
    ∧ same_inputs d d'
    ∧ panel_ready d'
    ∧ ∀ r c, 0 ≤ r → 0 ≤ c →
        grid_cell (ledStates d') r c
        = if decide (r = y ∧ c < panelWidth (options d))
          then Some (isOn_at d y c)
          else grid_cell (ledStates d) r c.
Proof.
  intros Hready Hy.
  assert (Hpw : 0 ≤ panelWidth (options d)).
  { destruct Hready as (Hshape & _).
    destruct (grid_shape_lookup _ _ _ y Hshape Hy) as (row & _ & Hlen). lia. }
  set (I := λ (x : Z) (d' : Display),
         same_inputs d d' ∧ panel_ready d'
         ∧ ∀ r c, 0 ≤ r → 0 ≤ c →
             grid_cell (ledStates d') r c
             = if decide (r = y ∧ c < x) then Some (isOn_at d y c)
               else grid_cell (ledStates d) r c).
  destruct (for_loop_opt_invariant I (updateLED y)
              (Z.to_nat (panelWidth (options d) - 0)) 0 d) as (d' & Hrun & HI).
  - split; [apply same_inputs_refl|]. split; [done|].
    intros r c Hr Hc. destruct (decide (r = y ∧ c < 0)); [lia|done].
  - intros x t Hx (Hsame & Hready' & Hcells).
    pose proof Hsame as (Ho & _).
    destruct (updateLED_cell t y x Hready') as (t' & Hstep & Hsame' & Hready'' & Hcells').
    + by rewrite Ho.
    + rewrite Ho. lia.
    + exists t'. split; [done|]. split; [by eapply same_inputs_trans|].
      split; [done|]. intros r c Hr Hc.
      rewrite (Hcells' r c Hr Hc), (Hcells r c Hr Hc).
      rewrite (isOn_at_same_inputs d t y x Hsame).
      repeat case_decide; try done; try lia.
      destruct_and!. by subst.
  - exists d'. unfold for_range_opt. split; [done|].
    destruct HI as (Hsame & Hready' & Hcells).
    split; [done|]. split; [done|]. intros r c Hr Hc.
    rewrite (Hcells r c Hr Hc).
    replace (0 + Z.of_nat (Z.to_nat (panelWidth (options d) - 0)))
      with (panelWidth (options d)) by lia.
    done.
Qed.

(** The whole grid: [updateLEDs] returns, keeps its inputs, and leaves in
    every cell of the panel the value of [isOn] there. *)
Lemma updateLEDs_cells (d : Display) :
  panel_ready d →
  ∃ d', updateLEDs d = Some d'
    ∧ same_inputs d d'
    ∧ panel_ready d'
    ∧ ∀ r c, 0 ≤ r < panelHeight (options d) → 0 ≤ c < panelWidth (options d) →
        grid_cell (ledStates d') r c = Some (isOn_at d r c).
Proof.
  intros Hready. pose proof (panel_ready_nonneg d Hready) as Hph.
  set (pw := panelWidth (options d)).
  set (I := λ (y : Z) (d' : Display),
         same_inputs d d' ∧ panel_ready d'
         ∧ ∀ r c, 0 ≤ r → 0 ≤ c →
             grid_cell (ledStates d') r c
             = if decide (r < y ∧ c < pw) then Some (isOn_at d r c)
               else grid_cell (ledStates d) r c).
  destruct (for_loop_opt_invariant I
              (λ y, for_range_opt 0 pw (updateLED y))
              (Z.to_nat (panelHeight (options d) - 0)) 0 d) as (d' & Hrun & HI).
  - split; [apply same_inputs_refl|]. split; [done|].
    intros r c Hr Hc. destruct (decide (r < 0 ∧ c < pw)); [lia|done].
  - intros y t Hy (Hsame & Hready' & Hcells).
    pose proof Hsame as (Ho & _).
    destruct (updateLEDs_row t y Hready') as (t' & Hstep & Hsame' & Hready'' & Hcells').
    + rewrite Ho. lia.
    + rewrite Ho in Hstep. fold pw in Hstep.
      exists t'. split; [done|]. split; [by eapply same_inputs_trans|].
      split; [done|]. intros r c Hr Hc.
      rewrite (Hcells' r c Hr Hc), (Hcells r c Hr Hc).
      rewrite Ho. fold pw.
      rewrite (isOn_at_same_inputs d t y c Hsame).
      repeat case_decide; try done; try lia.
      destruct_and!. by subst.
  - exists d'. split; [done|].
    destruct HI as (Hsame & Hready' & Hcells).
    split; [done|]. split; [done|]. intros r c Hr Hc.
    rewrite (Hcells r c) by lia.
    case_decide; [done|lia].
Qed.

(** C1: after the recompute the grid still has panelHeight by panelWidth
    cells, and the cell at (row, col) is on exactly when row is below the
    bitmap's height, col + floor(offset) is a column of the bitmap and the
    bitmap is true there; every other cell is off. *)
Theorem updateLEDs_grid (d : Display) (bm : Bitmap) :
  1 ≤ panelWidth (options d) → 1 ≤ panelHeight (options d) →
  panel_ready d → textBitmap d = Some bm →
  ∃ d', updateLEDs d = Some d'
    ∧ grid_shape (panelHeight (options d)) (panelWidth (options d)) (ledStates d')
    ∧ ∀ row col,
        0 ≤ row < panelHeight (options d) → 0 ≤ col < panelWidth (options d) →
        ∃ cell, grid_cell (ledStates d') row col = Some cell
          ∧ (truthy cell = true ↔
               row < bitmap_height bm
               ∧ 0 ≤ col + Qfloor (scrollOffset d) < bitmap_width bm
               ∧ cell_at bm row (col + Qfloor (scrollOffset d)) = Some true).
Proof.
  intros _ _ Hready Hbm.
  destruct (updateLEDs_cells d Hready) as (d' & Hrun & Hsame & Hready' & Hcells).
  exists d'. split; [done|]. split.
  - destruct Hsame as (Ho & _). destruct Hready' as (Hshape & _).
    by rewrite Ho in Hshape.
  - intros row col Hrow Hcol. exists (isOn_at d row col).
    split; [by apply Hcells|].
    unfold isOn_at. rewrite Hbm. cbv zeta.
    set (bx := col + Qfloor (scrollOffset d)).
    destruct (Z.ltb_spec row (bitmap_height bm));
      destruct (Z.leb_spec 0 bx);
      destruct (Z.ltb_spec bx (bitmap_width bm)); cbn [andb truthy];
      try (split; [discriminate | lia]).
    destruct (cell_at bm row bx) as [[|]|]; split; try done;
      intros (_ & _ & ?); done.
Qed.

Lemma banner_ready_ready : panel_ready banner_ready.
Proof.
  split; [split|]; [reflexivity | | cbn; lia].
  repeat constructor.
Defined.

Lemma updateLEDs_grid_witness :
  ∃ d', updateLEDs banner_ready = Some d'
    ∧ grid_shape 2 10 (ledStates d')
    ∧ ∀ row col,
        0 ≤ row < 2 → 0 ≤ col < 10 →
        ∃ cell, grid_cell (ledStates d') row col = Some cell
          ∧ (truthy cell = true ↔
               row < 2
               ∧ 0 ≤ col + 0 < 3
               ∧ cell_at [[Some true; Some false; Some true];
                          [Some false; Some true; Some false]] row (col + 0)
                 = Some true).
Proof.
  apply (updateLEDs_grid banner_ready _ ltac:(cbn; lia) ltac:(cbn; lia)
           banner_ready_ready eq_refl).
Defined.

(** The scenario of the specification, evaluated: at offset 0 row 0 shows
    on, off, on and then seven cells off; one tick later (offset 1) it shows
    bitmap columns 1 and 2 in cells 0 and 1. *)
Example scenario_offset_0 :
  ledStates <$> updateLEDs banner_ready
  = Some [[Some true; Some false; Some true; Some false; Some false;
           Some false; Some false; Some false; Some false; Some false];
          [Some false; Some true; Some false; Some false; Some false;
           Some false; Some false; Some false; Some false; Some false]].
Proof. reflexivity. Qed.

Example scenario_offset_1 :
  ledStates <$> updateLEDs (updateScrollPosition banner_ready)
  = Some [[Some false; Some true; Some false; Some false; Some false;
           Some false; Some false; Some false; Some false; Some false];
          [Some true; Some false; Some false; Some false; Some false;
           Some false; Some false; Some false; Some false; Some false]].
Proof. reflexivity. Qed.

(** At offset -panelWidth nothing is on. *)
Lemma isOn_at_offscreen (d : Display) (y x : Z) :
  scrollOffset d = inject_Z (- panelWidth (options d)) →
  x < panelWidth (options d) →
  isOn_at d y x = Some false.
Proof.
  intros Hoff Hx. unfold isOn_at. rewrite Hoff, Qfloor_Z.
  destruct (textBitmap d) as [bm|]; [|done]. cbv zeta.
  destruct (Z.leb_spec 0 (x + - panelWidth (options d))); [lia|].
  by rewrite andb_false_r.
Qed.

(** C4: setText followed at once by the recompute leaves every cell of the
    grid off. *)
Theorem setText_then_recompute_all_off
    (getImageData : string → Z → Z → option (list Z))
    (d : Display) (T : string) (data : list Z) :
  T ≠ "" → 1 ≤ panelWidth (options d) → panel_ready d →
  getImageData T (canvas_width T) canvas_height = Some data →
  ∃ d1 d2, setText getImageData T d = Some d1
    ∧ scrollOffset d1 = inject_Z (- panelWidth (options d))
    ∧ updateLEDs d1 = Some d2
    ∧ grid_shape (panelHeight (options d)) (panelWidth (options d)) (ledStates d2)
    ∧ Forall (Forall (λ cell, cell = Some false)) (ledStates d2).
Proof.
  intros _ _ Hready Hdata.
  pose (d1 := with_textBitmap
                (Some (rasterize data T (panelHeight (options d))))
                (with_scrollOffset (inject_Z (- panelWidth (options d)))
                   (with_options (set_text T (options d)) d))).
  assert (Hset : setText getImageData T d = Some d1).
  { unfold setText, createTextBitmap.
    cbn -[canvas_width canvas_height rasterize]. by rewrite Hdata. }
  assert (Hready1 : panel_ready d1) by exact Hready.
  destruct (updateLEDs_cells d1 Hready1) as (d2 & Hrun & Hsame & Hready2 & Hcells).
  exists d1, d2. split; [done|]. split; [reflexivity|]. split; [done|].
  destruct Hsame as (Ho & _). destruct Hready2 as (Hshape & _).
  rewrite Ho in Hshape. change (options d1) with (set_text T (options d)) in *.
  cbn [panelHeight panelWidth set_text] in *.
  split; [done|].
  apply Forall_lookup. intros r row Hrow.
  apply Forall_lookup. intros c cell Hcell.
  destruct Hshape as [Hlen Hrows].
  assert (Hr : 0 ≤ Z.of_nat r < panelHeight (options d)).
  { apply lookup_lt_Some in Hrow. lia. }
  assert (Hc : 0 ≤ Z.of_nat c < panelWidth (options d)).
  { rewrite Forall_lookup in Hrows. specialize (Hrows r row Hrow).
    apply lookup_lt_Some in Hcell. lia. }
  specialize (Hcells (Z.of_nat r) (Z.of_nat c) Hr Hc).
  rewrite isOn_at_offscreen in Hcells; [| done | cbn; lia].
  unfold grid_cell in Hcells. rewrite !Nat2Z.id, Hrow in Hcells.
  cbn [mbind option_bind] in Hcells. congruence.
Qed.

Lemma setText_then_recompute_all_off_witness :
  ∃ d1 d2, setText black_canvas "HI" banner_ready = Some d1
    ∧ scrollOffset d1 = inject_Z (- 10)
    ∧ updateLEDs d1 = Some d2
    ∧ grid_shape 2 10 (ledStates d2)
    ∧ Forall (Forall (λ cell, cell = Some false)) (ledStates d2).
Proof.
  apply (setText_then_recompute_all_off black_canvas banner_ready "HI"
           (concat (replicate 3264 [0; 0; 0; 255]))).
  - discriminate.
  - cbn. lia.
  - exact banner_ready_ready.
  - vm_compute. reflexivity.
Defined.

(** A tick keeps the panel ready: it moves the colour index inside the
    palette and touches neither the grid nor the LEDs. *)
Lemma updateScrollPosition_ready (d : Display) :
  panel_ready d → panel_ready (updateScrollPosition d).
Proof.
  intros (Hshape & Hleds & Hci).
  destruct (updateScrollPosition_frame d) as (E1 & _ & E3 & E4).
  unfold panel_ready. rewrite E1, E3, E4.
  split; [exact Hshape|]. split; [exact Hleds|].
  unfold updateScrollPosition.
  destruct (textBitmap d) as [bm|]; [|exact Hci].
  destruct (bitmap_height bm =? 0); [exact Hci|]. cbv zeta.
  destruct (Qle_bool _ _); [|exact Hci].
  cbn [currentColorIndex with_currentColorIndex with_scrollOffset].
  rewrite Z.rem_mod_nonneg by (cbn; lia).
  apply Z.mod_pos_bound. cbn. lia.
Qed.

(** ** createLEDs *)

Lemma new_array_Some {A : Type} (n : Z) (v : A) (l : list A) :
  new_array n v = Some l ↔ valid_length n ∧ l = replicate (Z.to_nat n) v.
Proof.
  unfold new_array, valid_length.
  destruct (Z.leb_spec 0 n); destruct (Z.ltb_spec n (2 ^ 32)); cbn [andb];
    split; try (intros [? ?]; lia); try discriminate.
  - intros [= <-]. split; [lia|done].
  - intros [_ ->]. done.
Qed.

Lemma mapM_replicate_Some {A B : Type} (f : A → option B) (a : A) (b : B) (n : nat) :
  f a = Some b → mapM f (replicate n a) = Some (replicate n b).
Proof.
  intros Hf. induction n as [|n IH]; [done|].
  cbn. rewrite Hf. cbn. rewrite IH. done.
Qed.

Lemma mapM_replicate_None {A B : Type} (f : A → option B) (a : A) (n : nat) :
  f a = None → (0 < n)%nat → mapM f (replicate n a) = None.
Proof.
  intros Hf Hn. destruct n as [|n]; [lia|]. cbn. by rewrite Hf.
Qed.

Lemma for_loop_push {A : Type} (v : A) (n : nat) (i : Z) (l : list A) :
  for_loop n i (λ _ l', l' ++ [v]) l = l ++ replicate n v.
Proof.
  revert i l. induction n as [|n IH]; intros i l; cbn [for_loop].
  - by rewrite app_nil_r.
  - rewrite IH, <- app_assoc. done.
Qed.

Lemma for_loop_push_rows {A : Type} (v : A) (pw : Z) (n : nat) (i : Z) (l : list A) :
  for_loop n i (λ _ l', for_range 0 pw (λ _ l'', l'' ++ [v]) l') l
  = l ++ replicate (n * Z.to_nat pw) v.
Proof.
  revert i l. induction n as [|n IH]; intros i l; cbn [for_loop].
  - by rewrite app_nil_r.
  - rewrite IH. unfold for_range. rewrite for_loop_push, Z.sub_0_r.
    rewrite <- app_assoc, <- replicate_add. done.
Qed.

(** [createLEDs] returns exactly when the panel dimensions are valid array
    lengths (the width is only looked at when there is a row to build). *)
Lemma createLEDs_Some (d d' : Display) :
  createLEDs d = Some d' ↔
  valid_length (panelHeight (options d))
  ∧ (0 < panelHeight (options d) → valid_length (panelWidth (options d)))
  ∧ d' = fresh_panel d.
Proof.
  unfold createLEDs. cbv zeta.
  destruct (new_array (panelHeight (options d)) tt) as [skeleton|] eqn:Hsk.
  - apply new_array_Some in Hsk as [Hph ->]. cbn [mbind option_bind].
    assert (Hleds :
      for_range 0 (panelHeight (options d))
        (λ _ l, for_range 0 (panelWidth (options d))
                  (λ _ l', l' ++ [new_led (offColor (options d))]) l) []
      = replicate (Z.to_nat (panelHeight (options d))
                   * Z.to_nat (panelWidth (options d)))
          (new_led (offColor (options d)))).
    { unfold for_range at 1. rewrite for_loop_push_rows, Z.sub_0_r. done. }
    rewrite Hleds.
    destruct (new_array (panelWidth (options d)) (Some false)) as [row|] eqn:Hrow.
    + apply new_array_Some in Hrow as [Hpw ->].
      erewrite mapM_replicate_Some; [|reflexivity].
      cbn [mbind option_bind]. unfold fresh_panel. cbv zeta.
      split.
      * intros [= <-]. done.
      * intros (_ & _ & ->). done.
    + destruct (decide (0 < panelHeight (options d))) as [Hpos|Hzero].
      * rewrite mapM_replicate_None by (done || lia). cbn. split; [done|].
        intros (_ & Hpw & _). specialize (Hpw Hpos).
        assert (new_array (panelWidth (options d)) (Some false)
                = Some (replicate (Z.to_nat (panelWidth (options d))) (Some false)))
          as E by (by apply new_array_Some).
        congruence.
      * replace (Z.to_nat (panelHeight (options d))) with 0%nat
          by (unfold valid_length in Hph; lia).
        cbn. unfold fresh_panel. cbv zeta.
        replace (Z.to_nat (panelHeight (options d))) with 0%nat
          by (unfold valid_length in Hph; lia).
        cbn. split.
        -- intros [= <-]. split; [done|]. split; [lia|done].
        -- intros (_ & _ & ->). done.
  - cbn. split; [done|]. intros (Hph & _).
    assert (new_array (panelHeight (options d)) tt
            = Some (replicate (Z.to_nat (panelHeight (options d))) tt))
      as E by (by apply new_array_Some).
    congruence.
Qed.

Lemma fresh_panel_ready (d : Display) :
  valid_length (panelHeight (options d)) →
  (0 < panelHeight (options d) → valid_length (panelWidth (options d))) →
  0 ≤ currentColorIndex d < Z.of_nat (length colorSequence) →
  panel_ready (fresh_panel d).
Proof.
  unfold valid_length. intros Hph Hpw Hci. unfold panel_ready, fresh_panel.
  cbn [options leds ledStates currentColorIndex with_leds with_ledStates].
  split; [split|split; [|exact Hci]].
  - rewrite length_replicate. lia.
  - destruct (decide (0 < panelHeight (options d))) as [Hpos|Hzero].
    + apply Forall_replicate. rewrite length_replicate.
      specialize (Hpw Hpos). lia.
    + replace (Z.to_nat (panelHeight (options d))) with 0%nat by lia.
      constructor.
  - rewrite length_replicate. nia.
Qed.

Lemma createLEDs_ok (d : Display) :
  valid_length (panelHeight (options d)) →
  valid_length (panelWidth (options d)) →
  0 ≤ currentColorIndex d < Z.of_nat (length colorSequence) →
  createLEDs d = Some (fresh_panel d) ∧ panel_ready (fresh_panel d).
Proof.
  intros Hph Hpw Hci. split.
  - by apply createLEDs_Some.
  - by apply fresh_panel_ready.
Qed.

(** ** The constructor *)

Lemma js_or_default (a b : Value) : to_boolean a = false → js_or a b = b.
Proof. intros H. unfold js_or. by rewrite H. Qed.

Lemma js_or_truthy (a b : Value) :
  to_boolean b = true → to_boolean (js_or a b) = true.
Proof. intros H. unfold js_or. by destruct (to_boolean a) eqn:E. Qed.

Lemma as_int_truthy (v : Value) (n : Z) :
  to_boolean v = true → as_int v = Some n → n ≠ 0.
Proof.
  destruct v as [| |b|q| |s|e]; try discriminate. cbn.
  intros Hq. destruct (Z.eqb_spec (Qnum q) 0) as [|Hne]; [discriminate|].
  destruct (Z.eqb_spec (Qnum q mod Z.pos (Qden q)) 0) as [Hmod|]; [|discriminate].
  intros [= <-]. intros Hz.
  apply Hne. rewrite (Z.div_mod (Qnum q) (Z.pos (Qden q))) by lia. lia.
Qed.

Lemma as_num_truthy (v : Value) (q : Q) :
  to_boolean v = true → as_num v = Some q → ¬ (q == 0)%Q.
Proof.
  destruct v as [| |b|q'| |s|e]; try discriminate. cbn.
  intros Hq [= <-]. destruct (Z.eqb_spec (Qnum q') 0) as [|Hne]; [discriminate|].
  unfold Qeq. cbn. lia.
Qed.

Lemma typed_options_Some (ov : OptionValues) (o : Options) :
  typed_options ov = Some o →
  as_elem (v_container ov) = Some (container o)
  ∧ as_str (v_text ov) = Some (text o)
  ∧ as_int (v_panelWidth ov) = Some (panelWidth o)
  ∧ as_int (v_panelHeight ov) = Some (panelHeight o)
  ∧ as_num (v_ledSize ov) = Some (ledSize o)
  ∧ as_num (v_spacing ov) = Some (spacing o)
  ∧ as_int (v_offColor ov) = Some (offColor o)
  ∧ as_num (v_scrollSpeed ov) = Some (scrollSpeed o).
Proof.
  unfold typed_options.
  destruct (as_elem (v_container ov)); [|discriminate].
  destruct (as_str (v_text ov)); [|discriminate].
  destruct (as_int (v_panelWidth ov)); [|discriminate].
  destruct (as_int (v_panelHeight ov)); [|discriminate].
  destruct (as_num (v_ledSize ov)); [|discriminate].
  destruct (as_num (v_spacing ov)); [|discriminate].
  destruct (as_int (v_offColor ov)); [|discriminate].
  destruct (as_num (v_scrollSpeed ov)); [|discriminate].
  cbn. intros [= <-]. cbn. repeat split.
Qed.

(** No option of a constructed display is zero: a zero would have been
    replaced by the default. *)
Lemma default_options_nonzero (opts : gmap string Value) (o : Options) :
  typed_options (default_options opts) = Some o →
  panelWidth o ≠ 0 ∧ panelHeight o ≠ 0 ∧ ¬ (scrollSpeed o == 0)%Q.
Proof.
  intros H. apply typed_options_Some in H as (_ & _ & Hpw & Hph & _ & _ & _ & Hss).
  cbn in Hpw, Hph, Hss. split; [|split].
  - eapply as_int_truthy; [|exact Hpw]. by apply js_or_truthy.
  - eapply as_int_truthy; [|exact Hph]. by apply js_or_truthy.
  - eapply as_num_truthy; [|exact Hss]. by apply js_or_truthy.
Qed.

(** Unfold the constructor down to the calls of its methods. *)
Ltac run_constructor :=
  unfold PremiumLEDDisplay_new, bind, lift_option, init, animate, bind,
    lift_option, emit, ret, throw.

Section Constructor.

Variable getImageData : string → Z → Z → option (list Z).

(** What the constructor went through when it returned an instance. *)
Lemma PremiumLEDDisplay_new_Some (opts : gmap string Value) (w w' : World)
    (d : Display) :
  PremiumLEDDisplay_new getImageData opts w = (w', Some d) →
  ∃ o data,
    typed_options (default_options opts) = Some o
    ∧ getImageData (text o) (canvas_width (text o)) canvas_height = Some data
    ∧ let d1 := with_textBitmap
                  (Some (rasterize data (text o) (panelHeight o)))
                  (initial_fields o) in
      valid_length (panelHeight o)
      ∧ (0 < panelHeight o → valid_length (panelWidth o))
      ∧ updateLEDs (updateScrollPosition (fresh_panel d1)) = Some d
      ∧ elements w' = elements w
      ∧ events w'
        = events w ++ [AppendChild (container o); AnimationFrameRequested;
                       Rendered (leds d); ResizeListenerAdded].
Proof.
  run_constructor.
  destruct (typed_options (default_options opts)) as [o|] eqn:Ho;
    [|discriminate].
  unfold createTextBitmap. cbn [options initial_fields text].
  destruct (getImageData (text o) (canvas_width (text o)) canvas_height)
    as [data|] eqn:Hdata; [|discriminate].
  cbn [mbind option_bind].
  set (d1 := with_textBitmap _ _).
  destruct (createLEDs d1) as [d2|] eqn:Hleds; [|discriminate].
  apply createLEDs_Some in Hleds as (Hph & Hpw & ->).
  cbn [elements events].
  destruct (updateLEDs (updateScrollPosition (fresh_panel d1))) as [d3|] eqn:Hrun;
    [|discriminate].
  intros [= <- <-]. exists o, data.
  split; [reflexivity|]. split; [exact Hdata|].
  cbv zeta. fold d1. cbn [elements events].
  split; [exact Hph|]. split; [exact Hpw|]. split; [exact Hrun|].
  split; [reflexivity|].
  rewrite <- !app_assoc. reflexivity.
Qed.

(** The constructor returns an instance whenever the options have the
    types of the specification, the panel dimensions are valid array lengths
    and the canvas hands back its pixels. *)
Lemma PremiumLEDDisplay_new_ok (opts : gmap string Value) (w : World)
    (o : Options) (data : list Z) :
  typed_options (default_options opts) = Some o →
  valid_length (panelWidth o) → valid_length (panelHeight o) →
  getImageData (text o) (canvas_width (text o)) canvas_height = Some data →
  ∃ w' d, PremiumLEDDisplay_new getImageData opts w = (w', Some d)
    ∧ options d = o ∧ panel_ready d.
Proof.
  intros Ho Hpw Hph Hdata.
  set (d1 := with_textBitmap (Some (rasterize data (text o) (panelHeight o)))
               (initial_fields o)).
  destruct (createLEDs_ok d1 Hph Hpw) as [Hleds Hready]; [cbn; lia|].
  pose proof (updateScrollPosition_ready _ Hready) as Hready'.
  destruct (updateLEDs_cells _ Hready') as (d & Hrun & Hsame & Hreadyd & _).
  run_constructor.
  rewrite Ho. unfold createTextBitmap. cbn [options initial_fields text].
  rewrite Hdata. cbn [mbind option_bind]. fold d1.
  rewrite Hleds. cbn [elements events]. rewrite Hrun.
  eexists _, d. split; [reflexivity|]. split; [|exact Hreadyd].
  destruct Hsame as (E & _). rewrite E.
  by destruct (updateScrollPosition_frame (fresh_panel d1)) as (-> & _).
Qed.

(** The instance the constructor returns: its options are the typed
    defaults, its panel is ready, its bitmap is the rasterized text, its
    offset is that of one tick from 0, and its grid is that of the first
    frame. *)
Lemma PremiumLEDDisplay_new_fields (opts : gmap string Value) (w w' : World)
    (d : Display) :
  PremiumLEDDisplay_new getImageData opts w = (w', Some d) →
  ∃ o data,
    typed_options (default_options opts) = Some o
    ∧ getImageData (text o) (canvas_width (text o)) canvas_height = Some data
    ∧ options d = o
    ∧ panel_ready d
    ∧ 1 ≤ panelHeight o ∧ 1 ≤ panelWidth o
    ∧ rasterize data (text o) (panelHeight o) ≠ []
    ∧ textBitmap d = Some (rasterize data (text o) (panelHeight o))
    ∧ scrollOffset d
      = (if Qle_bool
              (inject_Z (bitmap_width (rasterize data (text o) (panelHeight o))
                         + panelWidth o))
              (0 + scrollSpeed o)
         then inject_Z (- panelWidth o)
         else (0 + scrollSpeed o)%Q)
    ∧ ∀ r c, 0 ≤ r < panelHeight o → 0 ≤ c < panelWidth o →
        grid_cell (ledStates d) r c = Some (isOn_at d r c).
Proof.
  intros Hnew.
  destruct (PremiumLEDDisplay_new_Some opts w w' d Hnew)
    as (o & data & Ho & Hdata & Hph & Hpw & Hrun & _).
  destruct (default_options_nonzero opts o Ho) as (Hpw0 & Hph0 & _).
  assert (Hph1 : 1 ≤ panelHeight o) by (unfold valid_length in Hph; lia).
  assert (Hpw1 : 1 ≤ panelWidth o).
  { assert (valid_length (panelWidth o)) as Hv by (apply Hpw; lia).
    unfold valid_length in Hv. lia. }
  set (bm := rasterize data (text o) (panelHeight o)) in *.
  set (d1 := with_textBitmap (Some bm) (initial_fields o)) in *.
  assert (Hne : bm ≠ []) by (apply rasterize_shape; lia).
  assert (Hready : panel_ready (fresh_panel d1))
    by (apply fresh_panel_ready; [exact Hph | exact Hpw | cbn; lia]).
  pose proof (updateScrollPosition_ready _ Hready) as Hready'.
  destruct (updateLEDs_cells _ Hready') as (d' & Hrun' & Hsame & Hreadyd & Hcells).
  assert (d' = d) as -> by congruence.
  pose proof Hsame as (Eo & Eb & Es & _).
  destruct (updateScrollPosition_frame (fresh_panel d1)) as (Fo & Fb & _).
  assert (Hoptions : options d = o) by (rewrite Eo, Fo; reflexivity).
  exists o, data.
  split; [exact Ho|]. split; [exact Hdata|]. split; [exact Hoptions|].
  split; [exact Hreadyd|]. split; [exact Hph1|]. split; [exact Hpw1|].
  split; [exact Hne|]. split; [rewrite Eb, Fb; reflexivity|]. split.
  - rewrite Es.
    rewrite (updateScrollPosition_step (fresh_panel d1) bm eq_refl Hne).
    cbv zeta. cbn [options scrollOffset fresh_panel d1 with_leds with_ledStates
                     with_textBitmap initial_fields].
    by destruct (Qle_bool _ _).
  - intros r c Hr Hc.
    rewrite (Hcells r c) by (rewrite Fo; assumption).
    by rewrite (isOn_at_same_inputs _ d r c Hsame).
Qed.

End Constructor.

(** ** The claims about the constructor and the factory *)

(** C10: an option whose supplied value is falsy (0, the empty string, null,
    undefined, false) is replaced by its default, both in the options the
    constructor stores and in the instance it returns (text, panelWidth 80,
    panelHeight 10, ledSize 0.85, spacing 1.2, offColor 0x100000, scrollSpeed
    0.4, and document.body for the container); a supplied 0 for scrollSpeed
    or panelWidth gives 0.4 and 80. *)
Theorem falsy_options_take_defaults
    (getImageData : string → Z → Z → option (list Z))
    (opts : gmap string Value) :
  Forall (λ v, to_boolean v = false) [VNum 0; VStr ""; VNull; VUndef; VBool false]
  ∧ ((to_boolean (prop opts "text") = false →
        v_text (default_options opts) = VStr "WELCOME TO MY WEBSITE")
     ∧ (to_boolean (prop opts "panelWidth") = false →
        v_panelWidth (default_options opts) = VNum 80)
     ∧ (to_boolean (prop opts "panelHeight") = false →
        v_panelHeight (default_options opts) = VNum 10)
     ∧ (to_boolean (prop opts "ledSize") = false →
        v_ledSize (default_options opts) = VNum (85 # 100))
     ∧ (to_boolean (prop opts "spacing") = false →
        v_spacing (default_options opts) = VNum (12 # 10))
     ∧ (to_boolean (prop opts "offColor") = false →
        v_offColor (default_options opts) = VNum 1048576)
     ∧ (to_boolean (prop opts "scrollSpeed") = false →
        v_scrollSpeed (default_options opts) = VNum (4 # 10))
     ∧ (to_boolean (prop opts "container") = false →
        v_container (default_options opts) = VObj document_body))
  ∧ ∀ w w' d,
      PremiumLEDDisplay_new getImageData opts w = (w', Some d) →
      (to_boolean (prop opts "text") = false →
         text (options d) = "WELCOME TO MY WEBSITE")
      ∧ (to_boolean (prop opts "panelWidth") = false →
         panelWidth (options d) = 80)
      ∧ (to_boolean (prop opts "panelHeight") = false →
         panelHeight (options d) = 10)
      ∧ (to_boolean (prop opts "ledSize") = false →
         ledSize (options d) = 85 # 100)
      ∧ (to_boolean (prop opts "spacing") = false →
         spacing (options d) = 12 # 10)
      ∧ (to_boolean (prop opts "offColor") = false →
         offColor (options d) = 1048576)
      ∧ (to_boolean (prop opts "scrollSpeed") = false →
         scrollSpeed (options d) = 4 # 10)
      ∧ (to_boolean (prop opts "container") = false →
         container (options d) = document_body).
Proof.
  split; [repeat constructor|]. split.
  - cbn [default_options v_text v_panelWidth v_panelHeight v_ledSize v_spacing
           v_offColor v_scrollSpeed v_container].
    repeat split; apply js_or_default.
  - intros w w' d Hnew.
    destruct (PremiumLEDDisplay_new_fields getImageData opts w w' d Hnew)
      as (o & data & Ho & _ & -> & _).
    apply typed_options_Some in Ho
      as (Hc & Ht & Hpw & Hph & Hls & Hsp & Hoc & Hss).
    cbn [default_options v_text v_panelWidth v_panelHeight v_ledSize v_spacing
           v_offColor v_scrollSpeed v_container] in *.
    split; [intros Hf; rewrite (js_or_default _ _ Hf) in Ht;
            by injection Ht as <-|].
    split; [intros Hf; rewrite (js_or_default _ _ Hf) in Hpw;
            change (Some 80 = Some (panelWidth o)) in Hpw; by injection Hpw as <-|].
    split; [intros Hf; rewrite (js_or_default _ _ Hf) in Hph;
            change (Some 10 = Some (panelHeight o)) in Hph; by injection Hph as <-|].
    split; [intros Hf; rewrite (js_or_default _ _ Hf) in Hls;
            by injection Hls as <-|].
    split; [intros Hf; rewrite (js_or_default _ _ Hf) in Hsp;
            by injection Hsp as <-|].
    split; [intros Hf; rewrite (js_or_default _ _ Hf) in Hoc;
            change (Some 1048576 = Some (offColor o)) in Hoc; by injection Hoc as <-|].
    split; [intros Hf; rewrite (js_or_default _ _ Hf) in Hss;
            by injection Hss as <-|].
    intros Hf. rewrite (js_or_default _ _ Hf) in Hc. by injection Hc as <-.
Qed.

Lemma falsy_options_take_defaults_witness :
  v_scrollSpeed (default_options zero_options) = VNum (4 # 10)
  ∧ v_panelWidth (default_options zero_options) = VNum 80
  ∧ ∃ w' d,
      PremiumLEDDisplay_new black_canvas zero_options page0 = (w', Some d)
      ∧ scrollSpeed (options d) = 4 # 10
      ∧ panelWidth (options d) = 80.
Proof.
  destruct (falsy_options_take_defaults black_canvas zero_options)
    as (_ & (_ & Hpw & _ & _ & _ & _ & Hss & _) & Hnew).
  split; [apply Hss; reflexivity|]. split; [apply Hpw; reflexivity|].
  assert (∃ w' d,
            PremiumLEDDisplay_new black_canvas zero_options page0 = (w', Some d))
    as (w' & d & H) by (eexists _, _; vm_compute; reflexivity).
  exists w', d. split; [exact H|].
  destruct (Hnew page0 w' d H) as (_ & Hw & _ & _ & _ & _ & Hs & _).
  split; [apply Hs; reflexivity | apply Hw; reflexivity].
Defined.

Lemma Qle_bool_int_below_one (n : Z) (q : Q) :
  1 ≤ n → (q < 1)%Q → Qle_bool (inject_Z n) (0 + q) = false.
Proof.
  intros Hn Hq. destruct (Qle_bool _ _) eqn:E; [|done].
  apply Qle_bool_iff in E. exfalso.
  assert (inject_Z n < inject_Z 1)%Q as Hlt by (change (inject_Z 1) with 1%Q; lra).
  rewrite <- Zlt_Qlt in Hlt. lia.
Qed.

Lemma Qfloor_unit_interval (q : Q) : (0 < q)%Q → (q < 1)%Q → Qfloor (0 + q) = 0.
Proof.
  intros Hpos Hlt.
  pose proof (Qfloor_le (0 + q)) as Hlo.
  pose proof (Qlt_floor (0 + q)) as Hhi.
  assert (inject_Z (Qfloor (0 + q)) < inject_Z 1)%Q as H1
    by (change (inject_Z 1) with 1%Q; lra).
  assert (inject_Z 0 < inject_Z (Qfloor (0 + q) + 1))%Q as H0
    by (change (inject_Z 0) with 0%Q; lra).
  rewrite <- Zlt_Qlt in H1, H0. lia.
Qed.

(** C9 (amended): the constructor initialises the offset to 0 and runs the
    first frame itself, so the instance it returns has the offset of one tick
    from 0: 0 + scrollSpeed (0.4 by default), or -panelWidth when that tick
    wraps; it is never 0.  With 0 < scrollSpeed < 1 the first frame is drawn
    at floor(offset) = 0: the bitmap's column col sits in panel column col. *)
Theorem constructor_offset_after_first_frame
    (getImageData : string → Z → Z → option (list Z))
    (opts : gmap string Value) (w w' : World) (d : Display) :
  PremiumLEDDisplay_new getImageData opts w = (w', Some d) →
  ∃ o bm,
    typed_options (default_options opts) = Some o
    ∧ scrollOffset (initial_fields o) = 0%Q
    ∧ textBitmap d = Some bm
    ∧ scrollOffset d
      = (if Qle_bool (inject_Z (bitmap_width bm + panelWidth o))
              (0 + scrollSpeed o)
         then inject_Z (- panelWidth o)
         else (0 + scrollSpeed o)%Q)
    ∧ ¬ (scrollOffset d == 0)%Q
    ∧ (to_boolean (prop opts "scrollSpeed") = false →
       scrollOffset d = (0 + 4 # 10)%Q)
    ∧ ((0 < scrollSpeed o)%Q → (scrollSpeed o < 1)%Q →
       scrollOffset d = (0 + scrollSpeed o)%Q
       ∧ Qfloor (scrollOffset d) = 0
       ∧ ∀ row col, 0 ≤ row < panelHeight o → 0 ≤ col < panelWidth o →
           grid_cell (ledStates d) row col
           = Some (if (row <? bitmap_height bm) && (col <? bitmap_width bm)
                   then cell_at bm row col else Some false)).
Proof.
  intros Hnew.
  destruct (PremiumLEDDisplay_new_fields getImageData opts w w' d Hnew)
    as (o & data & Ho & _ & Hopt & _ & Hph & Hpw & _ & Hbm & Hoff & Hcells).
  destruct (default_options_nonzero opts o Ho) as (_ & _ & Hss).
  set (bm := rasterize data (text o) (panelHeight o)) in *.
  pose proof (bitmap_width_nonneg bm) as Hbw.
  assert (Hslow : (scrollSpeed o < 1)%Q → scrollOffset d = (0 + scrollSpeed o)%Q).
  { intros Hlt. rewrite Hoff. by rewrite Qle_bool_int_below_one by (lia || done). }
  exists o, bm. split; [exact Ho|]. split; [reflexivity|]. split; [exact Hbm|].
  split; [exact Hoff|]. split; [|split].
  - rewrite Hoff. destruct (Qle_bool _ _).
    + intros E. unfold Qeq in E. cbn in E. lia.
    + intros E. apply Hss. lra.
  - intros Hf. apply typed_options_Some in Ho as (_ & _ & _ & _ & _ & _ & _ & Hv).
    cbn [default_options v_scrollSpeed] in Hv.
    rewrite (js_or_default _ _ Hf) in Hv. injection Hv as Hv.
    rewrite Hslow; rewrite <- Hv; reflexivity.
  - intros Hpos Hlt. split; [by apply Hslow|].
    assert (Hfloor : Qfloor (scrollOffset d) = 0).
    { rewrite (Hslow Hlt). by apply Qfloor_unit_interval. }
    split; [exact Hfloor|].
    intros row col Hrow Hcol. rewrite (Hcells row col Hrow Hcol). f_equal.
    unfold isOn_at. rewrite Hbm, Hfloor. cbv zeta. rewrite Z.add_0_r.
    destruct (Z.leb_spec 0 col); [|lia].
    by rewrite andb_true_r.
Qed.

Lemma constructor_offset_after_first_frame_witness :
  ∃ w' d,
    PremiumLEDDisplay_new black_canvas zero_options page0 = (w', Some d)
    ∧ ∃ o bm,
        typed_options (default_options zero_options) = Some o
        ∧ scrollOffset (initial_fields o) = 0%Q
        ∧ textBitmap d = Some bm
        ∧ scrollOffset d
          = (if Qle_bool (inject_Z (bitmap_width bm + panelWidth o))
                  (0 + scrollSpeed o)
             then inject_Z (- panelWidth o)
             else (0 + scrollSpeed o)%Q)
        ∧ ¬ (scrollOffset d == 0)%Q
        ∧ (to_boolean (prop zero_options "scrollSpeed") = false →
           scrollOffset d = (0 + 4 # 10)%Q)
        ∧ ((0 < scrollSpeed o)%Q → (scrollSpeed o < 1)%Q →
           scrollOffset d = (0 + scrollSpeed o)%Q
           ∧ Qfloor (scrollOffset d) = 0
           ∧ ∀ row col, 0 ≤ row < panelHeight o → 0 ≤ col < panelWidth o →
               grid_cell (ledStates d) row col
               = Some (if (row <? bitmap_height bm) && (col <? bitmap_width bm)
                       then cell_at bm row col else Some false)).
Proof.
  assert (∃ w' d,
            PremiumLEDDisplay_new black_canvas zero_options page0 = (w', Some d))
    as (w' & d & H) by (eexists _, _; vm_compute; reflexivity).
  exists w', d. split; [exact H|].
  exact (constructor_offset_after_first_frame black_canvas zero_options page0 w' d H).
Defined.

(** C9 as stated fails: the display constructed with no options at all comes
    back with offset 0.4, not 0. *)
Lemma default_construction_offset_not_zero :
  ∃ w' d,
    PremiumLEDDisplay_new black_canvas ∅ page0 = (w', Some d)
    ∧ scrollOffset d = (0 + 4 # 10)%Q
    ∧ ¬ (scrollOffset d == 0)%Q.
Proof.
  assert (Ho : typed_options (default_options ∅) = Some all_defaults)
    by reflexivity.
  destruct (PremiumLEDDisplay_new_ok black_canvas ∅ page0 all_defaults
              (concat (replicate (Z.to_nat (canvas_width default_text * canvas_height))
                         [0; 0; 0; 255])) Ho)
    as (w' & d & Hnew & _).
  - unfold valid_length. cbn. lia.
  - unfold valid_length. cbn. lia.
  - reflexivity.
  - exists w', d. split; [exact Hnew|].
    destruct (PremiumLEDDisplay_new_fields black_canvas ∅ page0 w' d Hnew)
      as (o & data & Ho' & _ & _ & _ & _ & _ & _ & _ & Hoff & _).
    assert (o = all_defaults) as -> by congruence.
    rewrite Qle_bool_int_below_one in Hoff.
    + rewrite Hoff. split; [reflexivity|]. discriminate.
    + pose proof (bitmap_width_nonneg (rasterize data (text all_defaults)
                                         (panelHeight all_defaults))).
      cbn [panelWidth all_defaults]. lia.
    + reflexivity.
Qed.

(** C8: when no element has the given id the factory logs an error and
    returns null, and does nothing else to the page; when an element has it,
    the factory returns the instance the constructor builds for
    {container, ...options}. *)
Theorem initLEDBanner_container
    (getImageData : string → Z → Z → option (list Z))
    (containerId : string) (opts : gmap string Value) (w : World) :
  (elements w !! containerId = None →
     initLEDBanner getImageData containerId opts w
     = ({| elements := elements w;
           events := events w ++ [ConsoleError "Container not found"] |},
        Some None))
  ∧ (∀ el o data,
       elements w !! containerId = Some el →
       typed_options (default_options (opts ∪ {[ "container" := VObj el ]}))
         = Some o →
       valid_length (panelWidth o) → valid_length (panelHeight o) →
       getImageData (text o) (canvas_width (text o)) canvas_height = Some data →
       ∃ w' d,
         initLEDBanner getImageData containerId opts w = (w', Some (Some d))
         ∧ PremiumLEDDisplay_new getImageData
             (opts ∪ {[ "container" := VObj el ]}) w = (w', Some d)
         ∧ options d = o
         ∧ (opts !! "container" = None → container (options d) = el)).
Proof.
  split.
  - intros Hnone. unfold initLEDBanner, bind, getElementById, emit, ret.
    by rewrite Hnone.
  - intros el o data Hel Ho Hpw Hph Hdata.
    destruct (PremiumLEDDisplay_new_ok getImageData _ w o data Ho Hpw Hph Hdata)
      as (w' & d & Hnew & Hopt & _).
    exists w', d. unfold initLEDBanner, bind, getElementById, ret.
    rewrite Hel, Hnew. split; [reflexivity|]. split; [reflexivity|].
    split; [exact Hopt|]. intros Hc. rewrite Hopt.
    apply typed_options_Some in Ho as (Hcont & _).
    cbn [default_options v_container] in Hcont. unfold prop in Hcont.
    rewrite lookup_union_r in Hcont by exact Hc.
    rewrite lookup_singleton_eq in Hcont. cbn in Hcont. congruence.
Qed.

Lemma initLEDBanner_container_witness :
  initLEDBanner black_canvas "nope" zero_options page0
  = ({| elements := elements page0;
        events := events page0 ++ [ConsoleError "Container not found"] |},
     Some None)
  ∧ ∃ w' d,
      initLEDBanner black_canvas "banner" zero_options page0 = (w', Some (Some d))
      ∧ PremiumLEDDisplay_new black_canvas
          (zero_options ∪ {[ "container" := VObj 7%positive ]}) page0
        = (w', Some d)
      ∧ options d = banner_options
      ∧ (zero_options !! "container" = None → container (options d) = 7%positive).
Proof.
  split.
  - apply (proj1 (initLEDBanner_container black_canvas "nope" zero_options page0)).
    reflexivity.
  - apply (proj2 (initLEDBanner_container black_canvas "banner" zero_options page0)
             7%positive banner_options
             (concat (replicate 1600 [0; 0; 0; 255]))).
    + reflexivity.
    + reflexivity.
    + unfold valid_length. cbn. lia.
    + unfold valid_length. cbn. lia.
    + vm_compute. reflexivity.
Defined.

(** ** The width of the rasterized text *)

(** C3 (amended): whenever the canvas hands back its pixels, the bitmap
    [createTextBitmap] stores on a panel of height at least 1 is exactly as
    wide as the canvas, floor(25.6 * length of the text): at least 25 for a
    non-empty text, and 0 for the empty text.  No minimum width is
    substituted. *)
Theorem createTextBitmap_width
    (getImageData : string → Z → Z → option (list Z))
    (d : Display) (data : list Z) :
  1 ≤ panelHeight (options d) →
  getImageData (text (options d)) (canvas_width (text (options d))) canvas_height
    = Some data →
  ∃ d' bm,
    createTextBitmap getImageData d = Some d'
    ∧ textBitmap d' = Some bm
    ∧ bitmap_width bm = Z.of_nat (String.length (text (options d))) * 256 / 10
    ∧ (text (options d) ≠ "" → 25 ≤ bitmap_width bm)
    ∧ (text (options d) = "" → bitmap_width bm = 0).
Proof.
  intros Hph Hdata. unfold createTextBitmap. cbv zeta. rewrite Hdata.
  cbn [mbind option_bind]. eexists _, _. split; [reflexivity|].
  split; [reflexivity|].
  apply (rasterize_width data (text (options d)) (panelHeight (options d)) Hph).
Qed.

Lemma createTextBitmap_width_witness :
  ∃ d' bm,
    createTextBitmap black_canvas banner0 = Some d'
    ∧ textBitmap d' = Some bm
    ∧ bitmap_width bm = Z.of_nat (String.length "A") * 256 / 10
    ∧ ("A" ≠ "" → 25 ≤ bitmap_width bm)
    ∧ ("A" = "" → bitmap_width bm = 0).
Proof.
  apply (createTextBitmap_width black_canvas banner0
           (concat (replicate 1600 [0; 0; 0; 255]))).
  - cbn. lia.
  - vm_compute. reflexivity.
Defined.

(** C3 as stated fails on the empty text: if the canvas hands anything back,
    the bitmap has rows of width 0; with a canvas that refuses to read a
    zero-width area no bitmap is produced at all. *)
Lemma empty_text_zero_width :
  let d := with_options (set_text "" (options banner0)) banner0 in
  textBitmap <$> createTextBitmap lenient_canvas d = Some (Some [[]; []])
  ∧ bitmap_width [[]; []] = 0
  ∧ createTextBitmap black_canvas d = None
  ∧ ¬ (∀ (data : list Z) (t : string) (ph : Z),
         1 ≤ ph → 1 ≤ bitmap_width (rasterize data t ph)).
Proof.
  cbv zeta. split; [reflexivity|]. split; [reflexivity|]. split; [reflexivity|].
  intros H. specialize (H [] "" 2 ltac:(lia)).
  vm_compute in H. by apply H.
Qed.

(** C5 as stated fails on the empty text: its canvas is 0 pixels wide, a
    browser refuses to read a zero-width area back, and setText throws with
    the old bitmap still in place, which is the rasterization of no empty
    text. *)
Lemma setText_empty_keeps_bitmap :
  setText black_canvas "" banner_ready = None
  ∧ textBitmap (setText_leaves black_canvas "" banner_ready)
    = textBitmap banner_ready
  ∧ text (options (setText_leaves black_canvas "" banner_ready)) = ""
  ∧ ∀ data : list Z,
      textBitmap (setText_leaves black_canvas "" banner_ready)
      ≠ Some (rasterize data "" (panelHeight (options banner_ready))).
Proof.
  split; [reflexivity|]. split; [reflexivity|]. split; [reflexivity|].
  intros data E.
  assert (Hold : textBitmap (setText_leaves black_canvas "" banner_ready)
                 = Some [[Some true; Some false; Some true];
                         [Some false; Some true; Some false]]) by reflexivity.
  rewrite Hold in E.
  change (panelHeight (options banner_ready)) with 2 in E.
  destruct (rasterize_width data "" 2 ltac:(lia)) as (_ & _ & Hw).
  specialize (Hw eq_refl).
  set (new := rasterize data "" 2) in *.
  assert (E' : new = [[Some true; Some false; Some true];
                      [Some false; Some true; Some false]]) by congruence.
  rewrite E' in Hw. discriminate Hw.
Qed.

(** * Further properties of the code *)

(** ** The scroll cycle *)

(** X1: whatever the speed and the offset before, the offset after a tick is
    below bitmapWidth + panelWidth: the wrap test is made on the offset
    already advanced, so no tick can leave the offset past the bound. *)
Theorem tick_never_overshoots (d : Display) (bm : Bitmap) :
  textBitmap d = Some bm → bm ≠ [] →
  0 < bitmap_width bm + 2 * panelWidth (options d) →
  (scrollOffset (updateScrollPosition d)
   < inject_Z (bitmap_width bm + panelWidth (options d)))%Q.
Proof.
  intros Hbm Hne Hpos.
  rewrite (updateScrollPosition_step d bm Hbm Hne). cbv zeta.
  destruct (Qle_bool _ _) eqn:E;
    cbn [scrollOffset with_scrollOffset with_currentColorIndex].
  - rewrite <- Zlt_Qlt. lia.
  - apply Qnot_le_lt. intros Hle. apply Qle_bool_iff in Hle. congruence.
Qed.

Lemma tick_never_overshoots_witness :
  (scrollOffset (updateScrollPosition (with_scrollOffset 1000 banner0))
   < inject_Z (3 + 10))%Q.
Proof.
  apply (tick_never_overshoots (with_scrollOffset 1000 banner0) _ eq_refl).
  - discriminate.
  - cbn. lia.
Defined.

Lemma ticks_S (k : nat) (d : Display) :
  ticks (S k) d = updateScrollPosition (ticks k d).
Proof. reflexivity. Qed.

Lemma ticks_frame (k : nat) (d : Display) :
  options (ticks k d) = options d
  ∧ textBitmap (ticks k d) = textBitmap d
  ∧ leds (ticks k d) = leds d
  ∧ ledStates (ticks k d) = ledStates d.
Proof.
  induction k as [|k (IH1 & IH2 & IH3 & IH4)]; [done|].
  rewrite ticks_S.
  destruct (updateScrollPosition_frame (ticks k d)) as (E1 & E2 & E3 & E4).
  repeat split; congruence.
Qed.

(** X3: with a speed of zero or less the banner never wraps: from an offset
    below bitmapWidth + panelWidth, every later call of updateScrollPosition
    only adds the speed to the offset; the offset never rises, so it stays
    below the bound, and the colour index never changes. *)
Theorem ticks_backward_never_wrap (k : nat) (d : Display) (bm : Bitmap) :
  textBitmap d = Some bm → bm ≠ [] →
  (scrollSpeed (options d) <= 0)%Q →
  (scrollOffset d < inject_Z (bitmap_width bm + panelWidth (options d)))%Q →
  currentColorIndex (ticks k d) = currentColorIndex d
  ∧ (scrollOffset (ticks k d) <= scrollOffset d)%Q
  ∧ scrollOffset (ticks (S k) d)
    = (scrollOffset (ticks k d) + scrollSpeed (options d))%Q.
Proof.
  intros Hbm Hne Hs Hoff.
  assert (Hstep : ∀ t : Display,
            options t = options d → textBitmap t = Some bm →
            (scrollOffset t <= scrollOffset d)%Q →
            updateScrollPosition t
            = with_scrollOffset (scrollOffset t + scrollSpeed (options d)) t).
  { intros t Ho Hb Hle.
    rewrite (updateScrollPosition_step t bm Hb Hne). cbv zeta. rewrite Ho.
    destruct (Qle_bool _ _) eqn:E; [|done].
    apply Qle_bool_iff in E. lra. }
  assert (Hinv : currentColorIndex (ticks k d) = currentColorIndex d
                 ∧ (scrollOffset (ticks k d) <= scrollOffset d)%Q).
  { induction k as [|k [IHc IHo]]; [split; [done | apply Qle_refl]|].
    destruct (ticks_frame k d) as (Eo & Eb & _).
    rewrite ticks_S, (Hstep (ticks k d) Eo) by (congruence || done).
    cbn [currentColorIndex scrollOffset with_scrollOffset].
    split; [exact IHc | lra]. }
  destruct Hinv as [Hc Ho]. split; [exact Hc|]. split; [exact Ho|].
  destruct (ticks_frame k d) as (Eo & Eb & _).
  rewrite ticks_S, (Hstep (ticks k d) Eo) by (congruence || done).
  reflexivity.
Qed.

Lemma ticks_backward_never_wrap_witness :
  currentColorIndex (ticks 4 banner_backward) = 0
  ∧ (scrollOffset (ticks 4 banner_backward) <= 0)%Q
  ∧ scrollOffset (ticks 5 banner_backward)
    = (scrollOffset (ticks 4 banner_backward) + - (1))%Q.
Proof.
  apply (ticks_backward_never_wrap 4 banner_backward _ eq_refl).
  - discriminate.
  - discriminate.
  - reflexivity.
Defined.

(** ** The LEDs behind the grid *)

Lemma led_for_same_inputs (d d' : Display) (y x : Z) :
  same_inputs d d' → led_for d' y x = led_for d y x.
Proof.
  intros Hsame. pose proof Hsame as (Ho & _ & _ & Hc & _).
  unfold led_for. by rewrite (isOn_at_same_inputs d d' y x Hsame), Ho, Hc.
Qed.

Lemma led_for_is_Some (d : Display) (y x : Z) :
  panel_ready d → is_Some (led_for d y x).
Proof.
  intros (_ & _ & Hci). unfold led_for.
  destruct (color_at_in_palette _ Hci) as [c ->].
  destruct (truthy _); eauto.
Qed.

(** One cell, in full: the display [updateLED] returns. *)
Lemma updateLED_result (d : Display) (y x : Z) (row : list JsBool) (l : Led) :
  panel_ready d →
  0 ≤ y < panelHeight (options d) → 0 ≤ x < panelWidth (options d) →
  ledStates d !! Z.to_nat y = Some row →
  led_for d y x = Some l →
  updateLED y x d
  = Some (with_ledStates
            (<[Z.to_nat y := <[Z.to_nat x := isOn_at d y x]> row]> (ledStates d))
            (with_leds
               (<[Z.to_nat (y * panelWidth (options d) + x) := l]> (leds d)) d)).
Proof.
  intros (Hshape & Hleds & Hci) Hy Hx Hrow Hled.
  destruct (grid_shape_lookup _ _ _ y Hshape Hy) as (row' & Hrow' & Hlen).
  assert (row' = row) as -> by congruence.
  unfold updateLED. cbv zeta.
  destruct (Z.ltb_spec (y * panelWidth (options d) + x)
              (Z.of_nat (length (leds d)))) as [_|Hge]; [|nia].
  unfold led_for in Hled. rewrite Hled. cbn [mbind option_bind].
  unfold grid_set. destruct (Z.ltb_spec y 0); [lia|].
  rewrite Hrow. cbn [mbind option_bind].
  by rewrite arr_set_in_range by lia.
Qed.

Lemma updateLED_leds (d d' : Display) (y x : Z) :
  panel_ready d →
  0 ≤ y < panelHeight (options d) → 0 ≤ x < panelWidth (options d) →
  updateLED y x d = Some d' →
  ∀ i : nat,
    leds d' !! i
    = if decide (Z.of_nat i = y * panelWidth (options d) + x)
      then led_for d y x else leds d !! i.
Proof.
  intros Hready Hy Hx Hrun i.
  pose proof Hready as (Hshape & Hleds & _).
  destruct (grid_shape_lookup _ _ _ y Hshape Hy) as (row & Hrow & _).
  destruct (led_for_is_Some d y x Hready) as [l Hl].
  rewrite (updateLED_result d y x row l Hready Hy Hx Hrow Hl) in Hrun.
  injection Hrun as <-. cbn [leds with_leds with_ledStates]. rewrite Hl.
  case_decide as Hi.
  - replace i with (Z.to_nat (y * panelWidth (options d) + x)) by lia.
    apply list_lookup_insert_eq.
    assert (y * panelWidth (options d) + x
            < panelHeight (options d) * panelWidth (options d)) by nia.
    lia.
  - apply list_lookup_insert_ne.
    assert (0 ≤ y * panelWidth (options d)) by nia. lia.
Qed.

(** One row of LEDs. *)
Lemma updateLEDs_row_leds (d : Display) (y : Z) :
  panel_ready d → 0 ≤ y < panelHeight (options d) →
  ∃ d', for_range_opt 0 (panelWidth (options d)) (updateLED y) d = Some d'
    ∧ same_inputs d d'
    ∧ panel_ready d'
    ∧ ∀ i : nat,
        leds d' !! i
        = if decide (y * panelWidth (options d) ≤ Z.of_nat i
                     < y * panelWidth (options d) + panelWidth (options d))
          then led_for d y (Z.of_nat i - y * panelWidth (options d))
          else leds d !! i.
Proof.
  intros Hready Hy.
  set (pw := panelWidth (options d)).
  assert (Hpw : 0 ≤ pw).
  { destruct Hready as (Hshape & _).
    destruct (grid_shape_lookup _ _ _ y Hshape Hy) as (row & _ & Hlen).
    subst pw. lia. }
  set (I := λ (x : Z) (d' : Display),
         same_inputs d d' ∧ panel_ready d'
         ∧ ∀ i : nat,
             leds d' !! i
             = if decide (y * pw ≤ Z.of_nat i < y * pw + x)
               then led_for d y (Z.of_nat i - y * pw)
               else leds d !! i).
  destruct (for_loop_opt_invariant I (updateLED y) (Z.to_nat (pw - 0)) 0 d)
    as (d' & Hrun & HI).
  - split; [apply same_inputs_refl|]. split; [done|].
    intros i. case_decide; [lia|done].
  - intros x t Hx (Hsame & Hready' & Hleds).
    pose proof Hsame as (Ho & _).
    destruct (updateLED_cell t y x Hready') as (t' & Hstep & Hsame' & Hready'' & _).
    + by rewrite Ho.
    + rewrite Ho. fold pw. lia.
    + exists t'. split; [done|]. split; [by eapply same_inputs_trans|].
      split; [done|]. intros i.
      rewrite (updateLED_leds t t' y x Hready') by
        (rewrite ?Ho; fold pw; (done || lia)).
      rewrite Ho. fold pw. rewrite (Hleds i).
      rewrite (led_for_same_inputs d t y x Hsame).
      repeat case_decide; try done; try lia.
      f_equal. lia.
  - exists d'. unfold for_range_opt. split; [done|].
    destruct HI as (Hsame & Hready' & Hleds).
    split; [done|]. split; [done|]. intros i. rewrite (Hleds i).
    replace (0 + Z.of_nat (Z.to_nat (pw - 0))) with pw by lia.
    done.
Qed.

(** Every LED: those of the panel get the material of their cell, in row
    order; any LED past the panel is left as it was. *)
Lemma updateLEDs_leds (d : Display) :
  panel_ready d →
  ∃ d', updateLEDs d = Some d'
    ∧ same_inputs d d'
    ∧ panel_ready d'
    ∧ ∀ i : nat,
        leds d' !! i
        = if decide (Z.of_nat i
                     < panelHeight (options d) * panelWidth (options d))
          then led_for d (Z.of_nat i / panelWidth (options d))
                 (Z.of_nat i mod panelWidth (options d))
          else leds d !! i.
Proof.
  intros Hready. pose proof (panel_ready_nonneg d Hready) as Hph.
  set (pw := panelWidth (options d)).
  set (I := λ (y : Z) (d' : Display),
         same_inputs d d' ∧ panel_ready d'
         ∧ ∀ i : nat,
             leds d' !! i
             = if decide (Z.of_nat i < y * pw)
               then led_for d (Z.of_nat i / pw) (Z.of_nat i mod pw)
               else leds d !! i).
  destruct (for_loop_opt_invariant I
              (λ y, for_range_opt 0 pw (updateLED y))
              (Z.to_nat (panelHeight (options d) - 0)) 0 d) as (d' & Hrun & HI).
  - split; [apply same_inputs_refl|]. split; [done|].
    intros i. case_decide; [lia|done].
  - intros y t Hy (Hsame & Hready' & Hleds).
    pose proof Hsame as (Ho & _).
    destruct (updateLEDs_row_leds t y Hready')
      as (t' & Hstep & Hsame' & Hready'' & Hleds').
    + rewrite Ho. lia.
    + rewrite Ho in Hstep, Hleds'. fold pw in Hstep, Hleds'.
      exists t'. split; [done|]. split; [by eapply same_inputs_trans|].
      split; [done|]. intros i.
      rewrite (Hleds' i), (Hleds i).
      rewrite (led_for_same_inputs d t y _ Hsame).
      repeat case_decide; try done; try lia.
      * assert (0 < pw) by lia.
        assert (Z.of_nat i / pw = y) as ->
          by (symmetry; apply (Z.div_unique _ _ _ (Z.of_nat i - y * pw)); lia).
        f_equal. rewrite Z.mod_eq by lia.
        assert (Z.of_nat i / pw = y) as ->
          by (symmetry; apply (Z.div_unique _ _ _ (Z.of_nat i - y * pw)); lia).
        lia.
      * nia.
  - exists d'. split; [done|].
    destruct HI as (Hsame & Hready' & Hleds).
    split; [done|]. split; [done|]. intros i. rewrite (Hleds i).
    replace (0 + Z.of_nat (Z.to_nat (panelHeight (options d) - 0)))
      with (panelHeight (options d)) by lia.
    done.
Qed.

Lemma cell_index (pw y x : Z) :
  0 ≤ y → 0 ≤ x < pw →
  (y * pw + x) / pw = y ∧ (y * pw + x) mod pw = x.
Proof.
  intros Hy Hx.
  assert (Hdiv : (y * pw + x) / pw = y)
    by (symmetry; apply (Z.div_unique _ _ _ x); lia).
  split; [exact Hdiv|]. rewrite Z.mod_eq by lia. rewrite Hdiv. lia.
Qed.

(** X5: after the recompute the LED of every panel cell shows the cell: it
    has the current palette colour at intensity 0.7 when the cell is on and
    the off colour at intensity 0.1 when it is off, the LED of cell (y, x)
    being number y * panelWidth + x; LEDs past the panel are not touched. *)
Theorem updateLEDs_led_colours (d : Display) :
  panel_ready d →
  ∃ d', updateLEDs d = Some d'
    ∧ (∀ y x,
         0 ≤ y < panelHeight (options d) → 0 ≤ x < panelWidth (options d) →
         ∃ cell led,
           grid_cell (ledStates d') y x = Some cell
           ∧ leds d' !! Z.to_nat (y * panelWidth (options d) + x) = Some led
           ∧ (truthy cell = true →
              ∃ c, color_at (currentColorIndex d) = Some c
                ∧ led = {| color := c; emissive := c;
                           emissiveIntensity := 7 # 10 |})
           ∧ (truthy cell = false →
              led = {| color := offColor (options d);
                       emissive := offColor (options d);
                       emissiveIntensity := 1 # 10 |}))
    ∧ ∀ i : nat,
        panelHeight (options d) * panelWidth (options d) ≤ Z.of_nat i →
        leds d' !! i = leds d !! i.
Proof.
  intros Hready.
  destruct (updateLEDs_cells d Hready) as (d' & Hrun & _ & _ & Hcells).
  destruct (updateLEDs_leds d Hready) as (d'' & Hrun' & _ & _ & Hleds).
  assert (d'' = d') as -> by congruence.
  exists d'. split; [exact Hrun|]. split.
  - intros y x Hy Hx.
    destruct (led_for_is_Some d y x Hready) as [l Hl].
    exists (isOn_at d y x), l. split; [by apply Hcells|].
    destruct (cell_index (panelWidth (options d)) y x) as [Hdiv Hmod]; [lia..|].
    split.
    + rewrite Hleds. rewrite Z2Nat.id by nia.
      case_decide; [|nia]. by rewrite Hdiv, Hmod.
    + unfold led_for in Hl. destruct (truthy (isOn_at d y x)).
      * split; [|discriminate]. intros _.
        destruct (color_at (currentColorIndex d)) as [c|]; [|discriminate].
        exists c. split; [done|]. cbn in Hl. congruence.
      * split; [discriminate|]. intros _. congruence.
  - intros i Hi. rewrite Hleds. case_decide; [lia|done].
Qed.

Lemma updateLEDs_led_colours_witness :
  ∃ d', updateLEDs banner_ready = Some d'
    ∧ (∀ y x,
         0 ≤ y < 2 → 0 ≤ x < 10 →
         ∃ cell led,
           grid_cell (ledStates d') y x = Some cell
           ∧ leds d' !! Z.to_nat (y * 10 + x) = Some led
           ∧ (truthy cell = true →
              ∃ c, color_at 0 = Some c
                ∧ led = {| color := c; emissive := c;
                           emissiveIntensity := 7 # 10 |})
           ∧ (truthy cell = false →
              led = {| color := 1048576; emissive := 1048576;
                       emissiveIntensity := 1 # 10 |}))
    ∧ ∀ i : nat, 2 * 10 ≤ Z.of_nat i → leds d' !! i = leds banner_ready !! i.
Proof.
  apply (updateLEDs_led_colours banner_ready banner_ready_ready).
Defined.

Lemma grid_ext (ph pw : Z) (g1 g2 : list (list JsBool)) :
  grid_shape ph pw g1 → grid_shape ph pw g2 →
  (∀ r c, 0 ≤ r < ph → 0 ≤ c < pw → grid_cell g1 r c = grid_cell g2 r c) →
  g1 = g2.
Proof.
  intros [Hl1 Hr1] [Hl2 Hr2] Hcells.
  apply list_eq_same_length with (length g1); [lia | lia |].
  intros r row1 row2 Hr Hrow1 Hrow2.
  rewrite Forall_lookup in Hr1, Hr2.
  pose proof (Hr1 r row1 Hrow1). pose proof (Hr2 r row2 Hrow2).
  apply list_eq_same_length with (length row1); [lia | lia |].
  intros c c1 c2 Hc Hc1 Hc2.
  specialize (Hcells (Z.of_nat r) (Z.of_nat c) ltac:(lia) ltac:(lia)).
  unfold grid_cell in Hcells. rewrite !Nat2Z.id, Hrow1, Hrow2 in Hcells.
  cbn [mbind option_bind] in Hcells. congruence.
Qed.

Lemma display_eq (d1 d2 : Display) :
  options d1 = options d2 → leds d1 = leds d2 → ledStates d1 = ledStates d2 →
  textBitmap d1 = textBitmap d2 → scrollOffset d1 = scrollOffset d2 →
  currentColorIndex d1 = currentColorIndex d2 → d1 = d2.
Proof. destruct d1, d2. cbn. by intros -> -> -> -> -> ->. Qed.

(** X6: the recompute is idempotent: run on its own result it returns that
    result again, LEDs and grid included. *)
Theorem updateLEDs_idempotent (d : Display) :
  panel_ready d →
  ∃ d', updateLEDs d = Some d' ∧ updateLEDs d' = Some d'.
Proof.
  intros Hready.
  destruct (updateLEDs_cells d Hready) as (d1 & Hrun & Hsame & Hready1 & Hcells).
  destruct (updateLEDs_leds d Hready) as (d1' & Hrun' & _ & _ & Hleds).
  assert (d1' = d1) as -> by congruence.
  destruct (updateLEDs_cells d1 Hready1) as (d2 & Hrun2 & Hsame2 & Hready2 & Hcells2).
  destruct (updateLEDs_leds d1 Hready1) as (d2' & Hrun2' & _ & _ & Hleds2).
  assert (d2' = d2) as -> by congruence.
  exists d1. split; [exact Hrun|]. rewrite Hrun2. f_equal.
  pose proof Hsame as (Ho & _).
  pose proof Hsame2 as (Ho2 & Hb2 & Hs2 & Hc2 & _).
  apply display_eq; try done.
  - apply list_eq. intros i. rewrite (Hleds2 i), Ho.
    case_decide as Hi; [|done].
    rewrite (led_for_same_inputs d d1 _ _ Hsame). by rewrite (Hleds i), decide_True.
  - destruct Hready1 as (Hshape1 & _). destruct Hready2 as (Hshape2 & _).
    rewrite Ho2 in Hshape2.
    apply (grid_ext _ _ _ _ Hshape2 Hshape1). intros r c Hr Hc.
    rewrite (Hcells2 r c Hr Hc), (isOn_at_same_inputs d d1 r c Hsame).
    rewrite Ho in Hr, Hc. by rewrite (Hcells r c Hr Hc).
Qed.

Lemma updateLEDs_idempotent_witness :
  ∃ d', updateLEDs banner_ready = Some d' ∧ updateLEDs d' = Some d'.
Proof.
  apply (updateLEDs_idempotent banner_ready banner_ready_ready).
Defined.

(** X7: before any LED exists the recompute changes nothing and does not
    throw, whatever the panel dimensions and the grid: its writes are all
    behind the test that the LED exists. *)
Theorem updateLEDs_without_leds (d : Display) :
  leds d = [] → updateLEDs d = Some d.
Proof.
  intros Hleds. unfold updateLEDs, for_range_opt.
  destruct (for_loop_opt_invariant (λ _ t, t = d)
              (λ y, for_loop_opt (Z.to_nat (panelWidth (options d) - 0)) 0
                      (updateLED y))
              (Z.to_nat (panelHeight (options d) - 0)) 0 d eq_refl)
    as (d' & Hrun & ->); [|exact Hrun].
  intros y t Hy ->. exists d. split; [|done].
  destruct (for_loop_opt_invariant (λ _ t, t = d) (updateLED y)
              (Z.to_nat (panelWidth (options d) - 0)) 0 d eq_refl)
    as (d' & Hrun & ->); [|exact Hrun].
  intros x t Hx ->. exists d. split; [|done].
  unfold updateLED. cbv zeta. rewrite Hleds. cbn [length].
  destruct (Z.ltb_spec (y * panelWidth (options d) + x) (Z.of_nat 0)) as [Hlt|_];
    [|done].
  exfalso. assert (0 ≤ y * panelWidth (options d)) by nia. lia.
Qed.

Lemma updateLEDs_without_leds_witness : updateLEDs banner0 = Some banner0.
Proof. apply (updateLEDs_without_leds banner0). reflexivity. Defined.

Lemma isOn_at_blank (d : Display) (y x : Z) :
  0 ≤ x < panelWidth (options d) →
  (textBitmap d = None
   ∨ ∃ bm, textBitmap d = Some bm
       ∧ (Qfloor (scrollOffset d) ≤ - panelWidth (options d)
          ∨ bitmap_width bm ≤ Qfloor (scrollOffset d))) →
  isOn_at d y x = Some false.
Proof.
  intros Hx [Hnone|(bm & Hbm & Hoff)]; unfold isOn_at.
  - by rewrite Hnone.
  - rewrite Hbm. cbv zeta.
    destruct (Z.leb_spec 0 (x + Qfloor (scrollOffset d)));
      destruct (Z.ltb_spec (x + Qfloor (scrollOffset d)) (bitmap_width bm));
      rewrite ?andb_false_r; try done.
    lia.
Qed.

Lemma grid_all_off (ph pw : Z) (g : list (list JsBool)) :
  grid_shape ph pw g →
  (∀ r c, 0 ≤ r < ph → 0 ≤ c < pw → grid_cell g r c = Some (Some false)) →
  Forall (Forall (λ cell, cell = Some false)) g.
Proof.
  intros [Hlen Hrows] Hcells.
  apply Forall_lookup. intros r row Hrow.
  apply Forall_lookup. intros c cell Hcell.
  rewrite Forall_lookup in Hrows. specialize (Hrows r row Hrow).
  apply lookup_lt_Some in Hrow as Hr. apply lookup_lt_Some in Hcell as Hc.
  specialize (Hcells (Z.of_nat r) (Z.of_nat c) ltac:(lia) ltac:(lia)).
  unfold grid_cell in Hcells. rewrite !Nat2Z.id, Hrow in Hcells.
  cbn [mbind option_bind] in Hcells. congruence.
Qed.

(** X8: the panel is blank whenever the text is wholly off it: with no
    bitmap at all, with floor(offset) at or below -panelWidth (text still to
    the right), or with floor(offset) at or beyond the bitmap's width (text
    gone to the left, the last panelWidth units before the wrap), the
    recompute turns every cell off and gives every LED of the panel the off
    material. *)
Theorem updateLEDs_blank_offscreen (d : Display) :
  panel_ready d →
  (textBitmap d = None
   ∨ ∃ bm, textBitmap d = Some bm
       ∧ (Qfloor (scrollOffset d) ≤ - panelWidth (options d)
          ∨ bitmap_width bm ≤ Qfloor (scrollOffset d))) →
  ∃ d', updateLEDs d = Some d'
    ∧ Forall (Forall (λ cell, cell = Some false)) (ledStates d')
    ∧ ∀ i : nat,
        Z.of_nat i < panelHeight (options d) * panelWidth (options d) →
        leds d' !! i = Some (off_led (options d)).
Proof.
  intros Hready Hoff.
  destruct (updateLEDs_cells d Hready) as (d' & Hrun & Hsame & Hready' & Hcells).
  destruct (updateLEDs_leds d Hready) as (d'' & Hrun' & _ & _ & Hleds).
  assert (d'' = d') as -> by congruence.
  pose proof (panel_ready_nonneg d Hready) as Hph.
  exists d'. split; [exact Hrun|]. split.
  - destruct Hsame as (Ho & _). destruct Hready' as (Hshape & _).
    rewrite Ho in Hshape. apply (grid_all_off _ _ _ Hshape).
    intros r c Hr Hc. rewrite (Hcells r c Hr Hc).
    by rewrite isOn_at_blank.
  - intros i Hi. rewrite (Hleds i). rewrite decide_True by done.
    assert (0 < panelWidth (options d)) by nia.
    unfold led_for. rewrite isOn_at_blank; [done| |done].
    apply Z.mod_pos_bound. lia.
Qed.

Lemma updateLEDs_blank_offscreen_witness :
  ∃ d', updateLEDs (with_scrollOffset (7 # 2) banner_ready) = Some d'
    ∧ Forall (Forall (λ cell, cell = Some false)) (ledStates d')
    ∧ ∀ i : nat,
        Z.of_nat i < 2 * 10 →
        leds d' !! i = Some (off_led (options banner_ready)).
Proof.
  apply (updateLEDs_blank_offscreen (with_scrollOffset (7 # 2) banner_ready)
           banner_ready_ready).
  right. eexists. split; [reflexivity|]. right. vm_compute. discriminate.
Defined.

(** ** Frames *)

(** X9: on a ready panel a frame never throws.  It asks for the next frame
    first, then ticks, recomputes the grid for the offset just advanced and
    renders once; it changes neither the options nor the bitmap. *)
Theorem animate_frame (d : Display) (w : World) :
  panel_ready d →
  ∃ d',
    animate d w
    = ({| elements := elements w;
          events := events w ++ [AnimationFrameRequested; Rendered (leds d')] |},
       Some d')
    ∧ panel_ready d'
    ∧ options d' = options d
    ∧ textBitmap d' = textBitmap d
    ∧ scrollOffset d' = scrollOffset (updateScrollPosition d)
    ∧ currentColorIndex d' = currentColorIndex (updateScrollPosition d)
    ∧ ∀ r c, 0 ≤ r < panelHeight (options d) → 0 ≤ c < panelWidth (options d) →
        grid_cell (ledStates d') r c = Some (isOn_at (updateScrollPosition d) r c).
Proof.
  intros Hready.
  pose proof (updateScrollPosition_ready d Hready) as Hready1.
  destruct (updateScrollPosition_frame d) as (Fo & Fb & _).
  destruct (updateLEDs_cells _ Hready1) as (d' & Hrun & Hsame & Hready' & Hcells).
  destruct Hsame as (Ho & Hb & Hs & Hc & _).
  exists d'. split; [|split; [exact Hready'|]].
  - unfold animate, bind, emit, lift_option, ret. cbn [elements events].
    rewrite Hrun. cbn [elements events]. by rewrite <- app_assoc.
  - split; [congruence|]. split; [congruence|]. split; [exact Hs|].
    split; [exact Hc|]. intros r c Hr Hc'. apply Hcells; by rewrite Fo.
Qed.

Lemma animate_frame_witness :
  ∃ d',
    animate banner_ready page0
    = ({| elements := elements page0;
          events := events page0 ++ [AnimationFrameRequested; Rendered (leds d')] |},
       Some d')
    ∧ panel_ready d'
    ∧ options d' = options banner_ready
    ∧ textBitmap d' = textBitmap banner_ready
    ∧ scrollOffset d' = scrollOffset (updateScrollPosition banner_ready)
    ∧ currentColorIndex d' = currentColorIndex (updateScrollPosition banner_ready)
    ∧ ∀ r c, 0 ≤ r < 2 → 0 ≤ c < 10 →
        grid_cell (ledStates d') r c
        = Some (isOn_at (updateScrollPosition banner_ready) r c).
Proof.
  apply (animate_frame banner_ready page0 banner_ready_ready).
Defined.

(** ** Every display a page can hold *)

Lemma set_text_same (o : Options) : set_text (text o) o = o.
Proof. by destruct o. Qed.

Lemma animate_Some (d : Display) (w w' : World) (d' : Display) :
  animate d w = (w', Some d') →
  updateLEDs (updateScrollPosition d) = Some d'.
Proof.
  unfold animate, bind, emit, lift_option, ret, throw. cbn [elements events].
  destruct (updateLEDs (updateScrollPosition d)) as [d1|]; [|discriminate].
  by intros [= _ <-].
Qed.

Lemma animate_returns (d : Display) (w : World) :
  panel_ready d → ∃ w' d', animate d w = (w', Some d').
Proof.
  intros Hready.
  destruct (updateLEDs_cells _ (updateScrollPosition_ready d Hready))
    as (d' & Hrun & _).
  unfold animate, bind, emit, lift_option, ret. cbn [elements events].
  rewrite Hrun. eauto.
Qed.

Section Reachable.

Variable getImageData : string → Z → Z → option (list Z).

Lemma setText_Some (t : string) (d d' : Display) :
  setText getImageData t d = Some d' →
  ∃ data,
    getImageData t (canvas_width t) canvas_height = Some data
    ∧ d' = with_textBitmap (Some (rasterize data t (panelHeight (options d))))
             (with_scrollOffset (inject_Z (- panelWidth (options d)))
                (with_options (set_text t (options d)) d)).
Proof.
  unfold setText, createTextBitmap.
  cbn -[canvas_width canvas_height rasterize].
  destruct (getImageData t (canvas_width t) canvas_height) as [data|] eqn:E;
    [|discriminate].
  intros [= <-]. by exists data.
Qed.

Lemma constructed_running (opts : gmap string Value) (w w' : World) (d : Display) :
  PremiumLEDDisplay_new getImageData opts w = (w', Some d) → running opts d.
Proof.
  intros Hnew.
  destruct (PremiumLEDDisplay_new_fields getImageData opts w w' d Hnew)
    as (o & data & Ho & _ & Hopt & Hready & Hph & Hpw & Hne & Hbm & _).
  destruct (rasterize_shape data (text o) (panelHeight o) Hph) as (_ & Hrect & Hh).
  unfold running. rewrite Hopt.
  split; [exact Hready|]. split; [exact Hph|]. split; [exact Hpw|].
  split.
  - exists o. split; [exact Ho|]. by rewrite set_text_same.
  - eexists. split; [exact Hbm|]. split; [exact Hne|].
    split; [by exists (text o) | exact Hh].
Qed.

Lemma frame_running (opts : gmap string Value) (d : Display) (w w' : World)
    (d' : Display) :
  running opts d → animate d w = (w', Some d') → running opts d'.
Proof.
  intros (Hready & Hph & Hpw & Ho & Hbm) Hframe.
  apply animate_Some in Hframe.
  destruct (updateLEDs_cells _ (updateScrollPosition_ready d Hready))
    as (d'' & Hrun & Hsame & Hready' & _).
  assert (d'' = d') as -> by congruence.
  destruct Hsame as (Eo & Eb & _).
  destruct (updateScrollPosition_frame d) as (Fo & Fb & _).
  unfold running. rewrite Eo, Eb, Fo, Fb. done.
Qed.

Lemma setText_running (opts : gmap string Value) (d : Display) (t : string)
    (d' : Display) :
  running opts d → setText getImageData t d = Some d' → running opts d'.
Proof.
  intros (Hready & Hph & Hpw & (o & Ho & Hopt) & _) Hset.
  apply setText_Some in Hset as (data & _ & ->).
  destruct (rasterize_shape data t (panelHeight (options d)) Hph)
    as (Hne & Hrect & Hh).
  unfold running.
  cbn [options textBitmap with_textBitmap with_scrollOffset with_options
         panelHeight panelWidth text set_text].
  split; [exact Hready|]. split; [exact Hph|]. split; [exact Hpw|]. split.
  - exists o. split; [exact Ho|]. rewrite Hopt. reflexivity.
  - eexists. split; [reflexivity|]. split; [exact Hne|].
    split; [by exists t | exact Hh].
Qed.

(** A call of setText that throws leaves the new text with the old bitmap;
    the display keeps running. *)
Lemma setText_thrown_running (opts : gmap string Value) (d : Display)
    (t : string) :
  running opts d → setText getImageData t d = None →
  running opts (setText_leaves getImageData t d).
Proof.
  intros (Hready & Hph & Hpw & (o & Ho & Hopt) & Hbm) Hset.
  rewrite (setText_leaves_thrown getImageData t d Hset).
  unfold running.
  cbn [options textBitmap with_textBitmap with_scrollOffset with_options
         panelHeight panelWidth text set_text].
  split; [exact Hready|]. split; [exact Hph|]. split; [exact Hpw|].
  split; [|exact Hbm].
  exists o. split; [exact Ho|]. rewrite Hopt. reflexivity.
Qed.

Lemma reachable_is_running (opts : gmap string Value) (d : Display) :
  reachable getImageData opts d → running opts d.
Proof.
  induction 1 as [w w' d Hnew | d w w' d' _ IH Hframe | d t d' _ IH Hset
                  | d t _ IH Hset].
  - by eapply constructed_running.
  - by eapply frame_running.
  - by eapply setText_running.
  - by apply setText_thrown_running.
Qed.

(** X10: every display the page can hold, after any number of frames and of
    calls of setText, returned or thrown, has a ready panel, panel dimensions
    of at least 1, the options the constructor stored (only the text may
    differ) and a bitmap of min(panelHeight, 64) equally wide rows; so its
    next frame returns too: once constructed, the animation never throws,
    not even after a call of setText that threw. *)
Theorem reachable_keeps_running (opts : gmap string Value) (d : Display) :
  reachable getImageData opts d →
  running opts d ∧ ∀ w, ∃ w' d', animate d w = (w', Some d').
Proof.
  intros Hreach. pose proof (reachable_is_running opts d Hreach) as Hrun.
  split; [exact Hrun|]. intros w. apply animate_returns. by destruct Hrun.
Qed.

Lemma tick_range (d : Display) (bm : Bitmap) :
  textBitmap d = Some bm → bm ≠ [] → 1 ≤ panelWidth (options d) →
  (inject_Z (- panelWidth (options d)) <= scrollOffset d)%Q →
  (0 <= scrollSpeed (options d))%Q →
  offset_in_range (updateScrollPosition d) bm.
Proof.
  intros Hbm Hne Hpw Hlo Hs.
  pose proof (bitmap_width_nonneg bm) as Hw.
  unfold offset_in_range.
  destruct (updateScrollPosition_frame d) as (Ho & _). rewrite Ho.
  rewrite (updateScrollPosition_step d bm Hbm Hne). cbv zeta.
  destruct (Qle_bool _ _) eqn:E;
    cbn [scrollOffset with_scrollOffset with_currentColorIndex].
  - split; [apply Qle_refl|]. rewrite <- Zlt_Qlt. lia.
  - split; [lra|].
    apply Qnot_le_lt. intros Hle. apply Qle_bool_iff in Hle. congruence.
Qed.

(** X11: with a positive speed of any size, every display the page can hold
    has its offset inside [-panelWidth, bitmapWidth + panelWidth): the range
    holds from the constructor on, through frames and through setText, also
    for a speed of panelWidth or more. *)
Theorem reachable_offset_in_range (opts : gmap string Value) (d : Display) :
  reachable getImageData opts d →
  (0 < scrollSpeed (options d))%Q →
  ∃ bm, textBitmap d = Some bm ∧ offset_in_range d bm.
Proof.
  induction 1 as [w w' d Hnew | d w w' d' Hreach IH Hframe | d t d' Hreach IH Hset
                  | d t Hreach IH Hset];
    intros Hspeed.
  - destruct (PremiumLEDDisplay_new_fields getImageData opts w w' d Hnew)
      as (o & data & _ & _ & Hopt & _ & _ & Hpw & _ & Hbm & Hoff & _).
    eexists. split; [exact Hbm|].
    pose proof (bitmap_width_nonneg (rasterize data (text o) (panelHeight o))) as Hw.
    unfold offset_in_range. rewrite Hopt, Hoff. rewrite Hopt in Hspeed.
    assert (inject_Z (- panelWidth o) <= 0)%Q as Hneg
      by (change 0%Q with (inject_Z 0); rewrite <- Zle_Qle; lia).
    destruct (Qle_bool _ _) eqn:E.
    + split; [apply Qle_refl|]. rewrite <- Zlt_Qlt. lia.
    + split; [lra|].
      apply Qnot_le_lt. intros Hle. apply Qle_bool_iff in Hle. congruence.
  - pose proof (reachable_is_running opts d Hreach)
      as (Hready & _ & Hpw & _ & (bm & Hbm & Hne & _)).
    apply animate_Some in Hframe.
    destruct (updateLEDs_cells _ (updateScrollPosition_ready d Hready))
      as (d'' & Hrun & Hsame & _).
    assert (d'' = d') as -> by congruence.
    destruct Hsame as (Eo & Eb & Es & _).
    destruct (updateScrollPosition_frame d) as (Fo & Fb & _).
    rewrite Eo, Fo in Hspeed.
    destruct (IH Hspeed) as (bm' & Hbm' & Hlo & _).
    assert (bm' = bm) as -> by congruence.
    exists bm. split; [congruence|].
    pose proof (tick_range d bm Hbm Hne Hpw Hlo ltac:(lra)) as Hrange.
    unfold offset_in_range in *. by rewrite Es, Eo.
  - pose proof (reachable_is_running opts d Hreach) as (_ & _ & Hpw & _).
    apply setText_Some in Hset as (data & _ & ->).
    eexists. split; [reflexivity|].
    pose proof (bitmap_width_nonneg
                  (rasterize data t (panelHeight (options d)))) as Hw.
    unfold offset_in_range.
    cbn [options scrollOffset with_textBitmap with_scrollOffset with_options
           panelWidth set_text].
    split; [apply Qle_refl|]. rewrite <- Zlt_Qlt. lia.
  - pose proof (reachable_is_running opts d Hreach)
      as (_ & _ & Hpw & _ & (bm & Hbm & _)).
    rewrite (setText_leaves_thrown getImageData t d Hset).
    exists bm. split; [exact Hbm|].
    pose proof (bitmap_width_nonneg bm) as Hw.
    unfold offset_in_range.
    cbn [options scrollOffset with_scrollOffset with_options panelWidth set_text].
    split; [apply Qle_refl|]. rewrite <- Zlt_Qlt. lia.
Qed.

End Reachable.

(** A display on the page: after construction a frame, a new text, and a
    call of setText with the empty text, which throws. *)
Lemma sample_reachable :
  ∃ d, reachable black_canvas zero_options d ∧ text (options d) = "".
Proof.
  assert (∃ w' d,
            PremiumLEDDisplay_new black_canvas zero_options page0 = (w', Some d))
    as (w0 & d0 & H0) by (eexists _, _; vm_compute; reflexivity).
  pose proof (reach_new black_canvas zero_options page0 w0 d0 H0) as R0.
  destruct (reachable_is_running black_canvas zero_options d0 R0) as (Hr0 & _).
  destruct (animate_returns d0 w0 Hr0) as (w1 & d1 & H1).
  pose proof (reach_frame black_canvas zero_options d0 w0 w1 d1 R0 H1) as R1.
  assert (∃ d2, setText black_canvas "HI" d1 = Some d2) as (d2 & H2).
  { unfold setText, createTextBitmap.
    cbn -[rasterize]. eauto. }
  pose proof (reach_setText black_canvas zero_options d1 "HI" d2 R1 H2) as R2.
  assert (H3 : setText black_canvas "" d2 = None) by reflexivity.
  exists (setText_leaves black_canvas "" d2). split.
  - exact (reach_setText_thrown black_canvas zero_options d2 "" R2 H3).
  - by rewrite (setText_leaves_thrown black_canvas "" d2 H3).
Defined.

Lemma reachable_keeps_running_witness :
  ∃ d, running zero_options d ∧ ∀ w, ∃ w' d', animate d w = (w', Some d').
Proof.
  destruct sample_reachable as (d & Hreach & _).
  exists d. exact (reachable_keeps_running black_canvas zero_options d Hreach).
Defined.

Lemma reachable_offset_in_range_witness :
  ∃ d bm,
    reachable black_canvas zero_options d
    ∧ textBitmap d = Some bm ∧ offset_in_range d bm.
Proof.
  assert (∃ w' d,
            PremiumLEDDisplay_new black_canvas zero_options page0 = (w', Some d)
            ∧ (0 < scrollSpeed (options d))%Q)
    as (w0 & d0 & H0 & Hs)
    by (eexists _, _; split; [vm_compute; reflexivity | reflexivity]).
  pose proof (reach_new black_canvas zero_options page0 w0 d0 H0) as R0.
  destruct (reachable_offset_in_range black_canvas zero_options d0 R0 Hs)
    as (bm & Hbm & Hrange).
  exists d0, bm. split; [exact R0|]. split; [exact Hbm | exact Hrange].
Defined.

(** ** The rasterizer *)

(** X12: on a panel of height at least 1 the bitmap of a text has
    min(panelHeight, 64) rows, so never more rows than the panel, and every
    row has the width of the canvas, floor(25.6 * length of the text). *)
Theorem rasterize_dimensions (data : list Z) (t : string) (ph : Z) :
  1 ≤ ph →
  bitmap_height (rasterize data t ph) = Z.min ph 64
  ∧ bitmap_height (rasterize data t ph) ≤ ph
  ∧ Forall (λ row, Z.of_nat (length row) = Z.of_nat (String.length t) * 256 / 10)
      (rasterize data t ph).
Proof.
  intros Hph.
  destruct (rasterize_shape data t ph Hph) as (_ & Hrect & Hh).
  change canvas_height with 64 in Hh.
  split; [exact Hh|]. split; [lia|].
  pose proof (canvas_width_nonneg t) as Hw.
  rewrite <- canvas_width_formula.
  eapply Forall_impl; [exact Hrect|]. cbn beta. intros row ->. lia.
Qed.

Lemma rasterize_dimensions_witness :
  bitmap_height (rasterize [] "HI" 10) = Z.min 10 64
  ∧ bitmap_height (rasterize [] "HI" 10) ≤ 10
  ∧ Forall (λ row, Z.of_nat (length row) = Z.of_nat (String.length "HI") * 256 / 10)
      (rasterize [] "HI" 10).
Proof. apply (rasterize_dimensions [] "HI" 10). lia. Defined.

(** X13: the thresholded buffer has a pixel on exactly where the first of the
    pixel's four bytes (its red channel) is greater than 128; the other three
    bytes are never read, 128 itself is off, and a byte missing from the
    buffer counts as off. *)
Theorem threshold_pixel (data : list Z) (w h y x : Z) :
  0 ≤ y < h → 0 ≤ x < w →
  cell_at (threshold data w h) y x
  = Some (match data !! Z.to_nat (4 * (y * w + x)) with
          | Some red => 128 <? red
          | None => false
          end).
Proof.
  intros Hy Hx. rewrite threshold_tabulate. unfold cell_at.
  destruct (Z.leb_spec 0 y); [|lia]. destruct (Z.leb_spec 0 x); [|lia].
  cbn [andb]. rewrite lookup_tabulate by lia.
  rewrite lookup_tabulate by lia. cbn [default]. rewrite !Z2Nat.id by lia.
  unfold bright. by rewrite (Z.mul_comm _ 4).
Qed.

Lemma threshold_pixel_witness :
  cell_at (threshold [129; 255; 255; 255; 128; 255; 255; 255] 2 1) 0 1
  = Some (match [129; 255; 255; 255; 128; 255; 255; 255]
                  !! Z.to_nat (4 * (0 * 2 + 1)) with
          | Some red => 128 <? red
          | None => false
          end).
Proof. apply (threshold_pixel _ 2 1 0 1); lia. Defined.

Lemma Qfloor_nested_quotient (y ph H : Z) :
  0 < ph → 0 < H →
  Qfloor (inject_Z y / (inject_Z ph / inject_Z H))%Q = y * H / ph.
Proof.
  intros Hph HH.
  destruct ph as [|p|p]; try lia. destruct H as [|q|q]; try lia.
  assert (E : (inject_Z y / (inject_Z (Z.pos p) / inject_Z (Z.pos q))
               == (y * Z.pos q) # p)%Q).
  { rewrite (Qmake_Qdiv (y * Z.pos q) p), inject_Z_mult. field.
    split; intros E; discriminate E. }
  rewrite E. reflexivity.
Qed.

(** X14: when a rectangular bitmap of H rows is reduced to panelHeight < H
    rows, row y of the result is row floor(y * H / panelHeight) of the
    source; the clamp to H - 1 never takes effect, row 0 stays row 0, and
    rows are picked in increasing order. *)
Theorem resize_rows_picks (w : nat) (bm : Bitmap) (ph y : Z) :
  rectangular w bm → 0 < ph → ph < bitmap_height bm → 0 ≤ y < ph →
  resize_rows bm ph !! Z.to_nat y
  = bm !! Z.to_nat (y * bitmap_height bm / ph)
  ∧ y * bitmap_height bm / ph ≤ bitmap_height bm - 1
  ∧ (y = 0 → y * bitmap_height bm / ph = 0)
  ∧ (y + 1 < ph →
     y * bitmap_height bm / ph < (y + 1) * bitmap_height bm / ph).
Proof.
  intros Hrect Hph HH Hy.
  set (H := bitmap_height bm) in *.
  assert (Hclamp : y * H / ph ≤ H - 1).
  { assert (y * H / ph < H); [|lia].
    apply Z.div_lt_upper_bound; [lia|]. nia. }
  split; [|split; [exact Hclamp|split]].
  - rewrite (resize_rows_lookup w bm ph y Hrect Hph HH Hy). fold H.
    unfold source_row. rewrite Qfloor_nested_quotient by lia.
    by rewrite Z.min_l.
  - intros ->. reflexivity.
  - intros _.
    assert (y * H / ph + 1 ≤ (y + 1) * H / ph); [|lia].
    replace (y * H / ph + 1) with ((y * H + 1 * ph) / ph)
      by (rewrite Z.div_add by lia; lia).
    apply Z.div_le_mono; [lia|]. nia.
Qed.

Lemma resize_rows_picks_witness :
  resize_rows [[Some true]; [Some false]; [Some true]; [Some false]; [Some true]] 3
    !! Z.to_nat 1
  = [[Some true]; [Some false]; [Some true]; [Some false]; [Some true]]
      !! Z.to_nat (1 * 5 / 3)
  ∧ 1 * 5 / 3 ≤ 5 - 1
  ∧ (1 = 0 → 1 * 5 / 3 = 0)
  ∧ (1 + 1 < 3 → 1 * 5 / 3 < (1 + 1) * 5 / 3).
Proof.
  apply (resize_rows_picks 1
           [[Some true]; [Some false]; [Some true]; [Some false]; [Some true]] 3 1).
  - repeat constructor.
  - lia.
  - vm_compute. reflexivity.
  - lia.
Defined.

(** ** The factory and the constructor on the page *)

Section Page.

Variable getImageData : string → Z → Z → option (list Z).

Lemma initLEDBanner_Some (containerId : string) (opts : gmap string Value)
    (w w' : World) (el : Element) (d : Display) :
  elements w !! containerId = Some el →
  initLEDBanner getImageData containerId opts w = (w', Some (Some d)) →
  PremiumLEDDisplay_new getImageData (opts ∪ {[ "container" := VObj el ]}) w
  = (w', Some d).
Proof.
  intros Hel. unfold initLEDBanner, bind, getElementById, ret. rewrite Hel.
  destruct (PremiumLEDDisplay_new _ _ w) as [w1 [d1|]]; [|discriminate].
  by intros [= <- <-].
Qed.

(** X15: the factory spreads the caller's options over the element it looked
    up, so a container among the options wins: an element given there
    receives the display instead of the one with the id, and a falsy value
    given there (null, say) sends the display to document.body.  Only without
    a container option does the display go to the element with the id.  In
    each case the renderer's canvas is appended to the container stored. *)
Theorem initLEDBanner_container_option (containerId : string)
    (opts : gmap string Value) (w w' : World) (el : Element) (d : Display) :
  elements w !! containerId = Some el →
  initLEDBanner getImageData containerId opts w = (w', Some (Some d)) →
  (opts !! "container" = None → container (options d) = el)
  ∧ (∀ c, opts !! "container" = Some (VObj c) → container (options d) = c)
  ∧ (∀ v, opts !! "container" = Some v → to_boolean v = false →
       container (options d) = document_body)
  ∧ AppendChild (container (options d)) ∈ events w'.
Proof.
  intros Hel Hinit.
  pose proof (initLEDBanner_Some containerId opts w w' el d Hel Hinit) as Hnew.
  destruct (PremiumLEDDisplay_new_fields getImageData _ w w' d Hnew)
    as (o & data & Ho & _ & Hopt & _).
  destruct (PremiumLEDDisplay_new_Some getImageData _ w w' d Hnew)
    as (o' & _ & Ho' & _ & _ & _ & _ & _ & Hev).
  assert (o' = o) as -> by congruence.
  apply typed_options_Some in Ho as (Hc & _).
  cbn [default_options v_container] in Hc. unfold prop in Hc.
  rewrite Hopt. split; [|split; [|split]].
  - intros Hnone. rewrite lookup_union_r in Hc by exact Hnone.
    rewrite lookup_singleton_eq in Hc. cbn in Hc. congruence.
  - intros c Hsome. rewrite (lookup_union_Some_l _ _ _ _ Hsome) in Hc.
    cbn in Hc. congruence.
  - intros v Hsome Hfalsy. rewrite (lookup_union_Some_l _ _ _ _ Hsome) in Hc.
    cbn [default] in Hc. rewrite (js_or_default _ _ Hfalsy) in Hc.
    cbn in Hc. congruence.
  - rewrite Hev. apply elem_of_app. right. apply elem_of_cons. by left.
Qed.

(** X16: when the constructor returns, it has done exactly this to the page,
    in this order: appended the renderer's canvas to the container, asked for
    one animation frame, rendered once (the LEDs of the instance returned)
    and added one resize listener. *)
Theorem constructor_page_effects (opts : gmap string Value) (w w' : World)
    (d : Display) :
  PremiumLEDDisplay_new getImageData opts w = (w', Some d) →
  elements w' = elements w
  ∧ events w'
    = events w ++ [AppendChild (container (options d)); AnimationFrameRequested;
                   Rendered (leds d); ResizeListenerAdded].
Proof.
  intros Hnew.
  destruct (PremiumLEDDisplay_new_fields getImageData _ w w' d Hnew)
    as (o & _ & Ho & _ & Hopt & _).
  destruct (PremiumLEDDisplay_new_Some getImageData _ w w' d Hnew)
    as (o' & _ & Ho' & _ & _ & _ & _ & He & Hev).
  assert (o' = o) as -> by congruence.
  rewrite Hopt. by split.
Qed.

Lemma PremiumLEDDisplay_new_throws (opts : gmap string Value)
    (w : World) (o : Options) :
  typed_options (default_options opts) = Some o →
  (getImageData (text o) (canvas_width (text o)) canvas_height = None
   ∨ ¬ valid_length (panelHeight o)
   ∨ (0 < panelHeight o ∧ ¬ valid_length (panelWidth o))) →
  PremiumLEDDisplay_new getImageData opts w
  = ({| elements := elements w;
        events := events w ++ [AppendChild (container o)] |},
     None).
Proof.
  intros Ho Hfail. run_constructor. rewrite Ho.
  unfold createTextBitmap. cbn [options initial_fields text elements events].
  destruct (getImageData (text o) (canvas_width (text o)) canvas_height)
    as [data|] eqn:Hdata; [|done].
  cbn [mbind option_bind].
  set (d1 := with_textBitmap _ _).
  destruct (createLEDs d1) as [d2|] eqn:Hleds; [|done].
  apply createLEDs_Some in Hleds as (Hph & Hpw & _).
  destruct Hfail as [Hnone|[Hbad|[Hpos Hbad]]]; [discriminate|done|].
  exfalso. by apply Hbad, Hpw.
Qed.

(** X17: when the canvas read-back throws, or a panel dimension is no valid
    array length, the constructor throws after [init] has run: the renderer's
    canvas is already appended to the container, and nothing else has
    happened (no frame asked for, no resize listener). *)
Theorem constructor_failure_leaves_canvas (opts : gmap string Value)
    (w : World) (o : Options) :
  typed_options (default_options opts) = Some o →
  (getImageData (text o) (canvas_width (text o)) canvas_height = None
   ∨ ¬ valid_length (panelHeight o)
   ∨ (0 < panelHeight o ∧ ¬ valid_length (panelWidth o))) →
  PremiumLEDDisplay_new getImageData opts w
  = ({| elements := elements w;
        events := events w ++ [AppendChild (container o)] |},
     None).
Proof. apply PremiumLEDDisplay_new_throws. Qed.

(** X22: a failure of the constructor is not turned into the factory's null:
    when the element exists but the canvas read-back throws or a panel
    dimension is no valid array length, the factory throws as well; it logs
    no error, and the renderer's canvas stays appended to the container. *)
Theorem initLEDBanner_throws (containerId : string) (opts : gmap string Value)
    (w : World) (el : Element) (o : Options) :
  elements w !! containerId = Some el →
  typed_options (default_options (opts ∪ {[ "container" := VObj el ]})) = Some o →
  (getImageData (text o) (canvas_width (text o)) canvas_height = None
   ∨ ¬ valid_length (panelHeight o)
   ∨ (0 < panelHeight o ∧ ¬ valid_length (panelWidth o))) →
  initLEDBanner getImageData containerId opts w
  = ({| elements := elements w;
        events := events w ++ [AppendChild (container o)] |},
     None).
Proof.
  intros Hel Ho Hfail.
  unfold initLEDBanner, bind, getElementById. rewrite Hel.
  by rewrite (PremiumLEDDisplay_new_throws _ w o Ho Hfail).
Qed.

End Page.

Lemma initLEDBanner_container_option_witness :
  ∃ w' d,
    initLEDBanner black_canvas "banner" own_container_options page0
    = (w', Some (Some d))
    ∧ container (options d) = 9%positive
    ∧ AppendChild 9%positive ∈ events w'.
Proof.
  assert (∃ w' d,
            initLEDBanner black_canvas "banner" own_container_options page0
            = (w', Some (Some d)))
    as (w' & d & H) by (eexists _, _; vm_compute; reflexivity).
  exists w', d. split; [exact H|].
  destruct (initLEDBanner_container_option black_canvas "banner"
              own_container_options page0 w' 7%positive d eq_refl H)
    as (_ & Hown & _ & Hev).
  rewrite <- (Hown 9%positive eq_refl) at 2.
  split; [apply Hown; reflexivity | exact Hev].
Defined.

Lemma constructor_page_effects_witness :
  ∃ w' d,
    PremiumLEDDisplay_new black_canvas zero_options page0 = (w', Some d)
    ∧ elements w' = elements page0
    ∧ events w'
      = events page0 ++ [AppendChild (container (options d));
                         AnimationFrameRequested; Rendered (leds d);
                         ResizeListenerAdded].
Proof.
  assert (∃ w' d,
            PremiumLEDDisplay_new black_canvas zero_options page0 = (w', Some d))
    as (w' & d & H) by (eexists _, _; vm_compute; reflexivity).
  exists w', d. split; [exact H|].
  exact (constructor_page_effects black_canvas zero_options page0 w' d H).
Defined.

Lemma constructor_failure_leaves_canvas_witness :
  PremiumLEDDisplay_new black_canvas bad_height_options page0
  = ({| elements := elements page0;
        events := events page0 ++ [AppendChild document_body] |},
     None).
Proof.
  apply (constructor_failure_leaves_canvas black_canvas bad_height_options page0
           {| container := document_body; text := "A"; panelWidth := 80;
              panelHeight := -1; ledSize := 85 # 100; spacing := 12 # 10;
              offColor := 1048576; scrollSpeed := 4 # 10 |}).
  - reflexivity.
  - right. left. unfold valid_length. cbn. lia.
Defined.

Lemma initLEDBanner_throws_witness :
  initLEDBanner black_canvas "banner" bad_height_options page0
  = ({| elements := elements page0;
        events := events page0 ++ [AppendChild 7%positive] |},
     None).
Proof.
  apply (initLEDBanner_throws black_canvas "banner" bad_height_options page0
           7%positive
           {| container := 7%positive; text := "A"; panelWidth := 80;
              panelHeight := -1; ledSize := 85 # 100; spacing := 12 # 10;
              offColor := 1048576; scrollSpeed := 4 # 10 |}).
  - reflexivity.
  - reflexivity.
  - right. left. unfold valid_length. cbn. lia.
Defined.

(** ** setText and createLEDs, composed *)

(** X18: a call of setText whose read-back returns wipes out what an earlier
    call did, whether that one returned or threw: it leaves exactly the
    display that the same call would have left without the earlier one.  A
    call that throws does not: it stores its text and the offset, and the
    bitmap on the panel stays the one the earlier call left. *)
Theorem setText_last_wins (getImageData : string → Z → Z → option (list Z))
    (t1 t2 : string) (d : Display) :
  (∀ data,
     getImageData t2 (canvas_width t2) canvas_height = Some data →
     setText getImageData t2 (setText_leaves getImageData t1 d)
     = setText getImageData t2 d
     ∧ is_Some (setText getImageData t2 d)
     ∧ setText_leaves getImageData t2 (setText_leaves getImageData t1 d)
       = setText_leaves getImageData t2 d)
  ∧ (getImageData t2 (canvas_width t2) canvas_height = None →
     let d12 := setText_leaves getImageData t2 (setText_leaves getImageData t1 d) in
     text (options d12) = t2
     ∧ scrollOffset d12 = inject_Z (- panelWidth (options d))
     ∧ textBitmap d12 = textBitmap (setText_leaves getImageData t1 d)).
Proof.
  assert (Hfirst : ∃ b,
            setText_leaves getImageData t1 d
            = with_textBitmap b
                (with_scrollOffset (inject_Z (- panelWidth (options d)))
                   (with_options (set_text t1 (options d)) d))).
  { destruct (setText getImageData t1 d) as [d1|] eqn:E1.
    - rewrite (setText_leaves_returned getImageData t1 d d1 E1).
      apply setText_Some in E1 as (data1 & _ & ->). eauto.
    - rewrite (setText_leaves_thrown getImageData t1 d E1).
      exists (textBitmap d). reflexivity. }
  destruct Hfirst as (b & ->). split.
  - intros data Hdata.
    unfold setText_leaves, setText, createTextBitmap.
    cbn -[canvas_width canvas_height rasterize]. rewrite Hdata.
    split; [reflexivity|]. split; [eauto | reflexivity].
  - intros Hthrow. cbv zeta.
    unfold setText_leaves, createTextBitmap.
    cbn -[canvas_width canvas_height rasterize]. rewrite Hthrow.
    repeat split.
Qed.

Lemma setText_last_wins_witness :
  (setText black_canvas "A" (setText_leaves black_canvas "" banner_ready)
   = setText black_canvas "A" banner_ready
   ∧ is_Some (setText black_canvas "A" banner_ready)
   ∧ setText_leaves black_canvas "A" (setText_leaves black_canvas "" banner_ready)
     = setText_leaves black_canvas "A" banner_ready)
  ∧ textBitmap (setText_leaves black_canvas "" (setText_leaves black_canvas "HI" banner_ready))
    = textBitmap (setText_leaves black_canvas "HI" banner_ready).
Proof.
  split.
  - apply (proj1 (setText_last_wins black_canvas "" "A" banner_ready)
             (concat (replicate 1600 [0; 0; 0; 255]))).
    vm_compute. reflexivity.
  - apply (proj2 (setText_last_wins black_canvas "HI" "" banner_ready)).
    reflexivity.
Defined.

(** X19: createLEDs returns exactly when panelHeight is a valid array length
    and, if there is a row to build, panelWidth is one too; otherwise it
    throws.  When it returns there are panelHeight * panelWidth LEDs, each
    with the off colour, the grid has panelHeight rows of panelWidth cells,
    all off, and options, bitmap, offset and colour index are as before. *)
Theorem createLEDs_outcome (d : Display) :
  (is_Some (createLEDs d) ↔
     valid_length (panelHeight (options d))
     ∧ (0 < panelHeight (options d) → valid_length (panelWidth (options d))))
  ∧ ∀ d', createLEDs d = Some d' →
      Z.of_nat (length (leds d'))
      = panelHeight (options d) * panelWidth (options d)
      ∧ Forall (λ led, led = new_led (offColor (options d))) (leds d')
      ∧ Z.of_nat (length (ledStates d')) = panelHeight (options d)
      ∧ Forall (λ row, Z.of_nat (length row) = panelWidth (options d)
                       ∧ Forall (λ cell, cell = Some false) row)
          (ledStates d')
      ∧ options d' = options d
      ∧ textBitmap d' = textBitmap d
      ∧ scrollOffset d' = scrollOffset d
      ∧ currentColorIndex d' = currentColorIndex d.
Proof.
  split.
  - split.
    + intros [d' Hd']. by apply createLEDs_Some in Hd' as (? & ? & _).
    + intros [Hph Hpw]. exists (fresh_panel d). by apply createLEDs_Some.
  - intros d' Hd'. apply createLEDs_Some in Hd' as (Hph & Hpw & ->).
    unfold valid_length in *. unfold fresh_panel.
    cbn [leds ledStates options textBitmap scrollOffset currentColorIndex
           with_leds with_ledStates].
    split.
    { rewrite length_replicate.
      destruct (decide (0 < panelHeight (options d))) as [Hpos|Hzero];
        [specialize (Hpw Hpos)|]; nia. }
    split; [by apply Forall_replicate|].
    split; [rewrite length_replicate; lia|].
    split; [|done].
    destruct (decide (0 < panelHeight (options d))) as [Hpos|Hzero].
    + apply Forall_replicate. specialize (Hpw Hpos). split.
      * rewrite length_replicate. lia.
      * by apply Forall_replicate.
    + replace (Z.to_nat (panelHeight (options d))) with 0%nat by lia.
      constructor.
Qed.

Lemma createLEDs_outcome_witness :
  is_Some (createLEDs banner0).
Proof.
  apply (proj1 (createLEDs_outcome banner0)).
  unfold valid_length. cbn. lia.
Defined.

(** ** Where the LEDs are *)

Lemma for_loop_push_each {A : Type} (f : Z → A) (n : nat) (i : Z) (l : list A) :
  for_loop n i (λ x l', l' ++ [f x]) l
  = l ++ map (λ k, f (i + Z.of_nat k)) (seq 0 n).
Proof.
  revert i l. induction n as [|n IH]; intros i l; cbn [for_loop].
  - by rewrite app_nil_r.
  - rewrite IH, <- app_assoc. f_equal. cbn [seq map app].
    rewrite Z.add_0_r. f_equal. rewrite <- seq_shift, map_map.
    apply map_ext. intros k. f_equal. lia.
Qed.

(** The LEDs pushed by [n] rows of the double loop, starting at row [y0]. *)
Lemma push_rows_lookup {A : Type} (f : Z → Z → A) (pw : Z) (n : nat) (y0 : Z)
    (l : list A) :
  let r := for_loop n y0
             (λ y l', for_range 0 pw (λ x l'', l'' ++ [f y x]) l') l in
  length r = (length l + n * Z.to_nat pw)%nat
  ∧ (∀ i, (i < length l)%nat → r !! i = l !! i)
  ∧ ∀ j k, (j < n)%nat → (k < Z.to_nat pw)%nat →
      r !! (length l + j * Z.to_nat pw + k)%nat
      = Some (f (y0 + Z.of_nat j) (Z.of_nat k)).
Proof.
  revert y0 l. induction n as [|n IH]; intros y0 l; cbn [for_loop].
  - split; [lia|]. split; [done|]. intros j k Hj. lia.
  - set (l1 := for_range 0 pw (λ x l'', l'' ++ [f y0 x]) l).
    assert (Hl1 : l1 = l ++ map (λ k, f y0 (Z.of_nat k)) (seq 0 (Z.to_nat pw))).
    { subst l1. unfold for_range. rewrite for_loop_push_each, Z.sub_0_r.
      f_equal. }
    assert (Hlen1 : length l1 = (length l + Z.to_nat pw)%nat).
    { rewrite Hl1, length_app, length_map, length_seq. done. }
    destruct (IH (y0 + 1) l1) as (Hlen & Hold & Hnew).
    split; [rewrite Hlen, Hlen1; lia|]. split.
    + intros i Hi. rewrite Hold by lia. rewrite Hl1. by apply lookup_app_l.
    + intros j k Hj Hk. destruct j as [|j].
      * rewrite Hold by lia. rewrite Hl1.
        replace (length l + 0 * Z.to_nat pw + k)%nat with (length l + k)%nat by lia.
        rewrite lookup_app_r by lia.
        replace (length l + k - length l)%nat with k by lia.
        rewrite list_lookup_fmap, lookup_seq_lt by done. cbn.
        do 2 f_equal. lia.
      * replace (length l + S j * Z.to_nat pw + k)%nat
          with (length l1 + j * Z.to_nat pw + k)%nat by lia.
        rewrite (Hnew j k) by lia. do 2 f_equal. lia.
Qed.

(** X21: the LED that [updateLEDs] addresses for cell (y, x), number
    y * panelWidth + x, is the one [createLEDs] placed at column x of row y
    counted from the top: at (x * spacing, (panelHeight - 1 - y) * spacing, 0).
    There are panelHeight * panelWidth positions in all. *)
Theorem led_positions_index (o : Options) (y x : Z) :
  0 ≤ y < panelHeight o → 0 ≤ x < panelWidth o →
  led_positions o !! Z.to_nat (y * panelWidth o + x)
  = Some (inject_Z x * spacing o, inject_Z (panelHeight o - 1 - y) * spacing o, 0)%Q
  ∧ Z.of_nat (length (led_positions o)) = panelHeight o * panelWidth o.
Proof.
  intros Hy Hx.
  assert (E : led_positions o
              = for_loop (Z.to_nat (panelHeight o)) 0
                  (λ y l', for_range 0 (panelWidth o)
                             (λ x l'', l'' ++ [led_position o y x]) l') []).
  { unfold led_positions. unfold for_range at 1. by rewrite Z.sub_0_r. }
  rewrite E.
  destruct (push_rows_lookup (led_position o) (panelWidth o)
              (Z.to_nat (panelHeight o)) 0 []) as (Hlen & _ & Hnew).
  split.
  - specialize (Hnew (Z.to_nat y) (Z.to_nat x) ltac:(lia) ltac:(lia)).
    cbn [length] in Hnew.
    replace (0 + Z.to_nat y * Z.to_nat (panelWidth o) + Z.to_nat x)%nat
      with (Z.to_nat (y * panelWidth o + x)) in Hnew by nia.
    rewrite Hnew. rewrite !Z2Nat.id by lia. rewrite Z.add_0_l. reflexivity.
  - rewrite Hlen. cbn [length]. nia.
Qed.

Lemma led_positions_index_witness :
  led_positions (options banner0) !! Z.to_nat (1 * 10 + 3)
  = Some (inject_Z 3 * (12 # 10), inject_Z (2 - 1 - 1) * (12 # 10), 0)%Q
  ∧ Z.of_nat (length (led_positions (options banner0))) = 2 * 10.
Proof.
  apply (led_positions_index (options banner0) 1 3); cbn; lia.
Defined.
